(** * train.py of tacred-bert: the training and evaluation loop

    A shallow embedding of [train] (src/train.py): the epoch loop with its
    TRAIN pass (gradient accumulation), its EVAL pass (predictions and dev
    loss), the per-epoch report and the checkpoint files.

    The classifier, the loss, the optimizer, the scheduler, the data loaders
    and the scorer are imported by train.py from other modules; they are the
    fields of the class [Collaborators] below and every definition is
    parametric in them.  Python exceptions raised by train.py itself
    (division by zero, list index, tuple unpacking, dictionary key, unbound
    name, file copy) are modelled; failures inside a collaborator are not.
    The log file, config.json and the plot are written next to the
    checkpoints but never read back; only the two kinds of model files are
    kept in the modelled directory. *)

From Stdlib Require Import ZArith QArith Lia.
From stdpp Require Import gmap strings list fin_maps pretty.

Local Open Scope Z_scope.

(** ** Exceptions and the state-and-exception monad *)

Inductive exn_kind :=
  | ZeroDivisionError | IndexError | ValueError | KeyError | NameError
  | SameFileError | FileNotFoundError.

(** An exception together with the line of train.py that raises it. *)
Record exn := Exn { exn_kind_of : exn_kind; exn_line : Z }.

Inductive outcome (A : Type) :=
  | Returned (a : A)
  | Raised (e : exn).
Arguments Returned {A} a.
Arguments Raised {A} e.

(** A computation over a state [S]: the state reached when an exception is
    raised is kept, as it is what the aborted run leaves behind. *)
Definition M (S A : Type) : Type := S -> outcome A * S.

Definition ret {S A} (a : A) : M S A := fun s => (Returned a, s).

Definition raise {S A} (k : exn_kind) (line : Z) : M S A :=
  fun s => (Raised (Exn k line), s).

Definition bind {S A B} (m : M S A) (f : A -> M S B) : M S B :=
  fun s =>
    match m s with
    | (Returned a, s') => f a s'
    | (Raised e, s') => (Raised e, s')
    end.

Definition gets {S A} (f : S -> A) : M S A := fun s => (Returned (f s), s).

Definition modify {S} (f : S -> S) : M S unit := fun s => (Returned tt, f s).

Declare Scope py_scope.
Delimit Scope py_scope with py.
Notation "x <- c1 ;; c2" := (bind c1 (fun x => c2))
  (at level 100, c1 at next level, right associativity) : py_scope.
Notation "c1 ;; c2" := (bind c1 (fun _ => c2))
  (at level 100, right associativity) : py_scope.

(** [for x in xs: body] with loop-carried variables [a]. *)
Fixpoint for_each {S A X} (body : A -> X -> M S A) (xs : list X) (a : A) : M S A :=
  match xs with
  | [] => ret a
  | x :: xs' => bind (body a x) (for_each body xs')
  end.

(** ** Python integer and list primitives *)

(** [a // b]: floor division, [ZeroDivisionError] on a zero divisor. *)
Definition py_floordiv {S} (a b line : Z) : M S Z :=
  if decide (b = 0) then raise ZeroDivisionError line else ret (a / b).

(** [a % b]: the remainder has the sign of the divisor, as [Z.modulo]. *)
Definition py_mod {S} (a b line : Z) : M S Z :=
  if decide (b = 0) then raise ZeroDivisionError line else ret (a mod b).

(** [l[i]] on a list: negative indices count from the end. *)
Definition py_index {S A} (l : list A) (i line : Z) : M S A :=
  let n := Z.of_nat (length l) in
  let j := if decide (i < 0) then n + i else i in
  if decide (0 <= j < n) then
    match l !! Z.to_nat j with
    | Some x => ret x
    | None => raise IndexError line
    end
  else raise IndexError line.

(** [dict(pairs)]: a later pair with the same key replaces an earlier one. *)
Definition py_dict {V} (pairs : list (Z * V)) : gmap Z V :=
  fold_left (fun d kv => <[kv.1 := kv.2]> d) pairs ∅.

(** [max(l)] of a non-empty list: the first element that no later one
    exceeds ([item > current] replaces the current maximum). *)
Definition py_max {A} (gt : A -> A -> bool) (l : list A) : option A :=
  match l with
  | [] => None
  | x :: l' => Some (fold_left (fun m y => if gt y m then y else m) l' x)
  end.

(** ** Collaborators *)

(** The calls train.py makes on the model, the loss, the optimizer and the
    scheduler, in the order they are made (a ghost log). *)
Inductive Call (F : Type) :=
  | ModelTrain                 (* model.train() *)
  | ModelEval                  (* model.eval() *)
  | Forward                    (* model(input_ids, ...) *)
  | Criterion (loss : F)       (* criterion(logits, labels) *)
  | Backward                   (* loss.backward() *)
  | OptimizerStep              (* optimizer.step() *)
  | SchedulerStep              (* scheduler.step() *)
  | ZeroGrad.                  (* optimizer.zero_grad() *)
Arguments ModelTrain {F}.
Arguments ModelEval {F}.
Arguments Forward {F}.
Arguments Criterion {F} loss.
Arguments Backward {F}.
Arguments OptimizerStep {F}.
Arguments SchedulerStep {F}.
Arguments ZeroGrad {F}.

Class Collaborators := {
  (** torch tensors held by a batch *)
  Tensor : Type;
  (** float values: the 0-dim loss tensor, Python floats, logits entries *)
  Float : Type;
  (** parameters, accumulated gradients, optimizer and scheduler state and
      the random generator *)
  Net : Type;
  (** the bytes [torch.save] writes *)
  File : Type;
  (** [t.to(device)] *)
  to_device : Tensor -> Tensor;
  (** [len(t)], the number of examples of a batch tensor *)
  tensor_len : Tensor -> nat;
  (** [model(input_ids, att_mask=, e1_pos=, e2_pos=)] under
      [model.training]: the logits, one row per example, and the model
      afterwards *)
  model_forward : bool -> Net -> option Tensor -> option Tensor ->
                  option Tensor -> option Tensor -> list (list Float) * Net;
  (** [criterion(logits, labels)] *)
  criterion : list (list Float) -> option Tensor -> Float;
  (** [loss.backward()]: gradients are added to the accumulated ones *)
  loss_backward : Net -> Float -> Net;
  optimizer_step : Net -> Net;
  (** [None] when [get_scheduler] returned no scheduler *)
  scheduler_step : option (Net -> Net);
  optimizer_zero_grad : Net -> Net;
  float_of_int : Z -> Float;
  float_add : Float -> Float -> Float;
  float_div : Float -> Float -> Float;
  float_mul : Float -> Float -> Float;
  (** [a > b] *)
  float_gt : Float -> Float -> bool;
  (** [torch.save(model, _)] of a model with the given [training] flag *)
  torch_save : bool -> Net -> File;
  (** [constant.LABEL_TO_ID.items()] *)
  LABEL_TO_ID : list (string * Z);
  (** the batches [train_loader] yields in the pass of the given epoch *)
  train_loader : Z -> list (list (option Tensor));
  (** [len(train_loader.dataset)] *)
  train_dataset_len : Z;
  dev_loader : Z -> list (list (option Tensor));
  dev_dataset_len : Z;
  (** [dev_loader.dataset.eval(predictions, True)]:
      [micro_p], [micro_r], [micro_f1] *)
  dataset_eval : list string -> Float * Float * Float;
}.

(** ** The program state *)

(** [--batch_size] and the like, as [parse_args] returns them. *)
Record Args := {
  num_epoch : Z;
  batch_size : Z;
  input_method : Z;
  output_method : Z;
  log_step : Z;
  save_epoch : Z;
  save_dir : string;
  name : string;
}.

(** The value of [train_loss] and [dev_loss]: the integer they are
    initialised with, or a float tensor once a loss has been added. *)
Inductive PyNum (F : Type) :=
  | PyInt (z : Z)
  | PyFloat (x : F).
Arguments PyInt {F} z.
Arguments PyFloat {F} x.

Section Train.
Context `{Collaborators}.

(** A batch is the Python list of its five fields, absent ones [None]. *)
Local Abbreviation Batch := (list (option Tensor)).

Record State := mkState {
  (** the model object: its mode flag and everything the optimizer,
      the scheduler and [backward] update *)
  model_training : bool;
  net : Net;
  (** the files of the checkpoint kind under [model_save_dir] *)
  disk : gmap string File;
  calls : list (Call Float);
  (** variables of [train] that live across epochs *)
  global_step : Z;
  list_train_loss : list Float;
  list_dev_loss : list Float;
  list_dev_f1 : list Float;
  (** rows written by [file_logger.log] *)
  file_logger : list (Z * Float * Float * Float);
}.

Definition set_training (b : bool) (s : State) : State :=
  mkState b (net s) (disk s) (calls s) (global_step s)
          (list_train_loss s) (list_dev_loss s) (list_dev_f1 s) (file_logger s).

Definition set_net (n : Net) (s : State) : State :=
  mkState (model_training s) n (disk s) (calls s) (global_step s)
          (list_train_loss s) (list_dev_loss s) (list_dev_f1 s) (file_logger s).

Definition set_disk (d : gmap string File) (s : State) : State :=
  mkState (model_training s) (net s) d (calls s) (global_step s)
          (list_train_loss s) (list_dev_loss s) (list_dev_f1 s) (file_logger s).

Definition set_calls (c : list (Call Float)) (s : State) : State :=
  mkState (model_training s) (net s) (disk s) c (global_step s)
          (list_train_loss s) (list_dev_loss s) (list_dev_f1 s) (file_logger s).

Definition set_global_step (g : Z) (s : State) : State :=
  mkState (model_training s) (net s) (disk s) (calls s) g
          (list_train_loss s) (list_dev_loss s) (list_dev_f1 s) (file_logger s).

Definition log_row (row : Z * Float * Float * Float) (s : State) : State :=
  mkState (model_training s) (net s) (disk s) (calls s) (global_step s)
          (list_train_loss s) (list_dev_loss s) (list_dev_f1 s)
          (file_logger s ++ [row]).

Definition append_history (tl dl f1 : Float) (s : State) : State :=
  mkState (model_training s) (net s) (disk s) (calls s) (global_step s)
          (list_train_loss s ++ [tl]) (list_dev_loss s ++ [dl])
          (list_dev_f1 s ++ [f1]) (file_logger s).

Definition call (c : Call Float) : M State unit :=
  modify (fun s => set_calls (calls s ++ [c]) s).

(** ** Pieces of the loop bodies *)

(** [grad_acc_steps = 64 // args.batch_size] (line 81). *)
Definition grad_acc_steps (bs : Z) : M State Z := py_floordiv 64 bs 81.

(** One round of [for i in range(len(batch))] (lines 152-154, 196-198):
    the loop variable [i] of the enclosing [enumerate] is rebound. *)
Definition move_field (ib : Z * Batch) (j : nat) : Z * Batch :=
  (Z.of_nat j,
   match ib.2 !! j with
   | Some (Some t) => <[j := Some (to_device t)]> ib.2
   | _ => ib.2
   end).

Definition device_loop (i : Z) (batch : Batch) : Z * Batch :=
  fold_left move_field (seq 0 (length batch)) (i, batch).

Definition model_call (input_ids att_mask e1_pos e2_pos : option Tensor)
  : M State (list (list Float)) :=
  fun s =>
    let r := model_forward (model_training s) (net s)
                           input_ids att_mask e1_pos e2_pos in
    (Returned r.1, set_calls (calls s ++ [Forward]) (set_net r.2 s)).

Definition criterion_call (logits : list (list Float)) (labels : option Tensor)
  : M State Float :=
  let loss := criterion logits labels in
  bind (call (Criterion loss)) (fun _ => ret loss).

Definition backward_call (loss : Float) : M State unit :=
  bind (modify (fun s => set_net (loss_backward (net s) loss) s))
       (fun _ => call Backward).

Definition optimizer_step_call : M State unit :=
  bind (modify (fun s => set_net (optimizer_step (net s)) s))
       (fun _ => call OptimizerStep).

(** [if scheduler is not None: scheduler.step()] *)
Definition scheduler_step_call : M State unit :=
  match scheduler_step with
  | Some f => bind (modify (fun s => set_net (f (net s)) s))
                   (fun _ => call SchedulerStep)
  | None => ret tt
  end.

Definition zero_grad_call : M State unit :=
  bind (modify (fun s => set_net (optimizer_zero_grad (net s)) s))
       (fun _ => call ZeroGrad).

(** [total += loss] *)
Definition py_add_loss (total : PyNum Float) (loss : Float) : PyNum Float :=
  match total with
  | PyInt z => PyFloat (float_add (float_of_int z) loss)
  | PyFloat x => PyFloat (float_add x loss)
  end.

(** [enumerate(loader)] *)
Definition enumerate {A} (l : list A) : list (Z * A) :=
  zip (seqZ 0 (Z.of_nat (length l))) l.

(** ** The TRAIN pass (lines 146-184) *)

Local Open Scope py_scope.

(** The body of [for i, batch in enumerate(train_loader)]; [A] is
    [grad_acc_steps] and [train_loss] the running total. *)
Definition train_step (args : Args) (A : Z) (train_loss : PyNum Float)
    (ib : Z * Batch) : M State (PyNum Float) :=
  (* lines 152-154: [i] is the variable of both loops *)
  let ib' := device_loop ib.1 ib.2 in
  let i := ib'.1 in
  (* line 155 *)
  match ib'.2 with
  | [labels; input_ids; att_mask; e1_pos; e2_pos] =>
      logits <- model_call input_ids att_mask e1_pos e2_pos ;;
      loss <- criterion_call logits labels ;;
      (* line 169; the message printed under the condition is not kept *)
      gs <- gets global_step ;;
      _ <- py_mod gs (log_step args) 169 ;;
      backward_call loss ;;
      (* line 177 *)
      r <- py_mod (i + 1) A 177 ;;
      (if decide (r = 0)
       then optimizer_step_call ;; scheduler_step_call ;; zero_grad_call
       else ret tt) ;;
      modify (fun s => set_global_step (global_step s + 1) s) ;;
      ret (py_add_loss train_loss loss)
  | _ => raise ValueError 155
  end.

Definition train_pass (args : Args) (A : Z) (batches : list Batch)
  : M State (PyNum Float) :=
  modify (set_training true) ;; call ModelTrain ;;
  for_each (train_step args A) (enumerate batches) (PyInt 0).

(** ** The EVAL pass (lines 189-215) *)

(** [torch.argmax(row)]: the position of the first largest entry; an empty
    row has none. *)
Definition argmax_row (row : list Float) : option Z :=
  match row with
  | [] => None
  | x :: row' =>
      Some (fold_left
              (fun (acc : Z * Z * Float) y =>
                 let '(best, j, m) := acc in
                 if float_gt y m then (j, j + 1, y) else (best, j + 1, m))
              row' (0, 1, x)).1.1
  end.

(** [torch.argmax(logits, dim=1).cpu().tolist()] (line 211) *)
Definition argmax_rows (logits : list (list Float)) : M State (list Z) :=
  match mapM argmax_row logits with
  | Some ps => ret ps
  | None => raise IndexError 211
  end.

(** The body of [for i, batch in enumerate(dev_loader)]; the loop carries
    [predictions] and [dev_loss]. *)
Definition eval_step (acc : list Z * PyNum Float) (ib : Z * Batch)
  : M State (list Z * PyNum Float) :=
  let ib' := device_loop ib.1 ib.2 in
  match ib'.2 with
  | [labels; input_ids; att_mask; e1_pos; e2_pos] =>
      logits <- model_call input_ids att_mask e1_pos e2_pos ;;
      loss <- criterion_call logits labels ;;
      preds <- argmax_rows logits ;;
      ret (acc.1 ++ preds, py_add_loss acc.2 loss)
  | _ => raise ValueError 200
  end.

(** [id2label = dict([(v,k) for k,v in constant.LABEL_TO_ID.items()])] *)
Definition id2label : gmap Z string :=
  py_dict (map (fun kv : string * Z => (kv.2, kv.1)) LABEL_TO_ID).

(** [[id2label[p] for p in predictions]] (line 215) *)
Definition lookup_labels (ps : list Z) : M State (list string) :=
  match mapM (fun p => id2label !! p) ps with
  | Some ls => ret ls
  | None => raise KeyError 215
  end.

(** Lines 189-215: the predicted labels and the summed dev loss. *)
Definition eval_pass (batches : list Batch)
  : M State (list string * PyNum Float) :=
  modify (set_training false) ;; call ModelEval ;;
  r <- for_each eval_step (enumerate batches) ([], PyInt 0) ;;
  predictions <- lookup_labels r.1 ;;
  ret (predictions, r.2).

(** ** The report and the checkpoint files (lines 217-245) *)

(** [total / n * bs]: an integer total (no batch was seen) is divided as a
    Python number, a tensor total as a tensor. *)
Definition normalized_loss (total : PyNum Float) (n bs line : Z)
  : M State Float :=
  match total with
  | PyInt z =>
      if decide (n = 0) then raise ZeroDivisionError line
      else ret (float_mul (float_div (float_of_int z) (float_of_int n))
                          (float_of_int bs))
  | PyFloat x =>
      ret (float_mul (float_div x (float_of_int n)) (float_of_int bs))
  end.

Definition model_save_dir (args : Args) : string :=
  save_dir args +:+ "/" +:+ name args.

(** [model_save_dir + '/ckpt_epoch_{}.pt'.format(epoch)] *)
Definition ckpt_path (args : Args) (epoch : Z) : string :=
  model_save_dir args +:+ "/ckpt_epoch_" +:+ pretty epoch +:+ ".pt".

Definition best_path (args : Args) : string :=
  model_save_dir args +:+ "/best_model.pt".

(** [torch.save(model, path)] *)
Definition save_model (path : string) : M State unit :=
  modify (fun s =>
    set_disk (<[path := torch_save (model_training s) (net s)]> (disk s)) s).

(** [shutil.copyfile(src, dst)] *)
Definition copyfile (src dst : string) (line : Z) : M State unit :=
  if decide (src = dst) then raise SameFileError line
  else
    d <- gets disk ;;
    match d !! src with
    | Some bytes => modify (set_disk (<[dst := bytes]> d))
    | None => raise FileNotFoundError line
    end.

(** [os.remove(path)] *)
Definition os_remove (path : string) (line : Z) : M State unit :=
  d <- gets disk ;;
  match d !! path with
  | Some _ => modify (set_disk (delete path d))
  | None => raise FileNotFoundError line
  end.

(** [len(list_dev_f1) == 0 or dev_f1 > max(list_dev_f1)] (line 234) *)
Definition is_new_best (dev_f1 : Float) (seen : list Float) : bool :=
  match py_max float_gt seen with
  | None => true
  | Some m => float_gt dev_f1 m
  end.

(** Lines 232-238. *)
Definition checkpoint (args : Args) (epoch : Z) (dev_f1 : Float)
  : M State unit :=
  let model_file := ckpt_path args epoch in
  save_model model_file ;;
  seen <- gets list_dev_f1 ;;
  (if is_new_best dev_f1 seen
   then copyfile model_file (best_path args) 235
   else ret tt) ;;
  r <- py_mod epoch (save_epoch args) 237 ;;
  if decide (r = 0) then ret tt else os_remove model_file 238.

(** The body of [for epoch in range(1, opt['num_epoch']+1)]. *)
Definition epoch_body (args : Args) (A : Z) (_ : unit) (epoch : Z)
  : M State unit :=
  train_loss <- train_pass args A (train_loader epoch) ;;
  r <- eval_pass (dev_loader epoch) ;;
  let dev_f1 := (dataset_eval r.1).2 in
  train_loss <- normalized_loss train_loss train_dataset_len
                                (batch_size args) 223 ;;
  dev_loss <- normalized_loss r.2 dev_dataset_len (batch_size args) 224 ;;
  modify (log_row (epoch, train_loss, dev_loss, dev_f1)) ;;
  checkpoint args epoch dev_f1 ;;
  modify (append_history train_loss dev_loss dev_f1).

(** The epochs [first .. first + count - 1] in order. *)
Definition run_epochs (args : Args) (A : Z) (first count : Z) : M State unit :=
  for_each (epoch_body args A) (seqZ first count) tt.

(** ** [train(args)] *)

Definition input_method_name : list string :=
  [""; "standard"; "positional_embedding"; "entity_markers"].
Definition output_method_name : list string :=
  [""; "cls_token"; "mention_pooling"; "entity_start"].

(** Lines 58-63: the two names are looked up to be printed. *)
Definition print_methods (args : Args) : M State unit :=
  _ <- py_index input_method_name (input_method args) 62 ;;
  _ <- py_index output_method_name (output_method args) 63 ;;
  ret tt.

(** Lines 124 and 136-142: the logger and the variables that live across
    epochs. *)
Definition init_locals (s : State) : State :=
  mkState (model_training s) (net s) (disk s) (calls s) 0 [] [] [] [].

(** The state [train] starts from is the one the collaborators built: the
    pretrained model, the optimizer and the scheduler in [net], and the
    directory as it was found. *)
Definition train (args : Args) : M State unit :=
  print_methods args ;;
  A <- grad_acc_steps (batch_size args) ;;
  modify init_locals ;;
  run_epochs args A 1 (num_epoch args) ;;
  (* line 248 reads [epoch], unbound when the loop body never ran *)
  if decide (num_epoch args < 1) then raise NameError 248 else ret tt.

Local Close Scope py_scope.

End Train.

(** ** The accumulation factor as the specification words it *)

(** [ceil(a / b)] *)
Definition ceil_div (a b : Z) : Z := - ((- a) / b).

(** [A = ceil(target_batch_size / effective_batch_size)] with the target
    batch size 64. *)
Definition spec_accumulation_factor (bs : Z) : Z := ceil_div 64 bs.

(** ** Observations on the log of calls *)

Section Observations.
Context `{Collaborators}.

(** The calls of one optimizer update (lines 178-181). *)
Definition step_calls : list (Call Float) :=
  OptimizerStep ::
  match scheduler_step with Some _ => [SchedulerStep] | None => [] end ++
  [ZeroGrad].

Definition is_optimizer_step (c : Call Float) : bool :=
  match c with OptimizerStep => true | _ => false end.

(** The number of optimizer steps a log records. *)
Definition optimizer_steps (cs : list (Call Float)) : nat :=
  length (filter (fun c => is_optimizer_step c = true) cs).

(** A call that changes the parameters, the gradients or the optimizer and
    scheduler state. *)
Definition is_update (c : Call Float) : bool :=
  match c with
  | Backward | OptimizerStep | SchedulerStep | ZeroGrad => true
  | _ => false
  end.

(** The losses a log records, in order. *)
Definition losses_of (cs : list (Call Float)) : list Float :=
  omap (fun c => match c with Criterion l => Some l | _ => None end) cs.

(** [0 + l1 + l2 + ...], as [total += loss] computes it from [total = 0]. *)
Definition sum_losses (ls : list Float) : Float :=
  fold_left float_add ls (float_of_int 0).

(** The calls of one batch of the TRAIN pass under [grad_acc_steps = A]:
    the accumulation condition of line 177 is [(4 + 1) % A == 0]. *)
Definition batch_calls (A : Z) (loss : Float) : list (Call Float) :=
  [Forward; Criterion loss; Backward] ++
  (if decide (5 mod A = 0) then step_calls else []).

(** The calls of one batch of the TRAIN pass, with or without the optimizer
    update. *)
Definition batch_log (update : bool) (loss : Float) : list (Call Float) :=
  [Forward; Criterion loss; Backward] ++ (if update then step_calls else []).

(** What the model returns for a batch of five fields once moved. *)
Definition batch_forward (training : bool) (n : Net)
    (b : list (option Tensor)) : list (list Float) * Net :=
  match (device_loop 0 b).2 with
  | [labels; input_ids; att_mask; e1_pos; e2_pos] =>
      model_forward training n input_ids att_mask e1_pos e2_pos
  | _ => ([], n)
  end.

(** The logits of a batch in inference mode. *)
Definition eval_logits (n : Net) (b : list (option Tensor)) : list (list Float) :=
  (batch_forward false n b).1.

(** The loss of a batch in inference mode. *)
Definition eval_loss (n : Net) (b : list (option Tensor)) : Float :=
  criterion (eval_logits n b) (to_device <$> default None (head b)).

(** The number of examples of a batch: the length of its labels. *)
Definition batch_examples (b : list (option Tensor)) : nat :=
  match b with
  | Some labels :: _ => tensor_len labels
  | _ => 0%nat
  end.

(** The float a running total stands for. *)
Definition total_value (t : PyNum Float) : Float :=
  match t with
  | PyInt z => float_of_int z
  | PyFloat x => x
  end.

(** [total / n * bs] on floats. *)
Definition normalize (total : Float) (n bs : Z) : Float :=
  float_mul (float_div total (float_of_int n)) (float_of_int bs).

(** The directory after lines 233-235 of [epoch]: the model is saved as
    [bytes] and copied to the best-model file when it is a new best. *)
Definition disk_promoted (args : Args) (epoch : Z) (new_best : bool)
    (bytes : File) (d : gmap string File) : gmap string File :=
  let saved := <[ckpt_path args epoch := bytes]> d in
  if new_best then <[best_path args := bytes]> saved else saved.

(** The directory after lines 233-238 of [epoch]. *)
Definition disk_after_checkpoint (args : Args) (epoch : Z) (new_best : bool)
    (bytes : File) (d : gmap string File) : gmap string File :=
  let promoted := disk_promoted args epoch new_best bytes d in
  if decide (epoch mod save_epoch args = 0) then promoted
  else delete (ckpt_path args epoch) promoted.

(** [bytes] is what [torch.save] wrote in epoch [e] of the run that
    starts in [s0]: the model as it is at the end of that epoch. *)
Definition epoch_snapshot (args : Args) (A : Z) (s0 : State) (e : Z)
    (bytes : File) : Prop :=
  exists s_e, run_epochs args A 1 e s0 = (Returned tt, s_e) /\
              bytes = torch_save (model_training s_e) (net s_e).

(** The calls of one batch of the EVAL pass. *)
Definition eval_calls (loss : Float) : list (Call Float) :=
  [Forward; Criterion loss].

(** Two states hold the same model. *)
Definition same_model (s t : State) : Prop :=
  model_training s = model_training t /\ net s = net t.

(** What a stretch of the EVAL pass may do to a state [s]: log calls that
    update nothing, and leave the model, the files and the history. *)
Definition only_observed (s s' : State) : Prop :=
  net s' = net s /\ model_training s' = false /\
  global_step s' = global_step s /\
  disk s' = disk s /\ list_train_loss s' = list_train_loss s /\
  list_dev_loss s' = list_dev_loss s /\ list_dev_f1 s' = list_dev_f1 s /\
  file_logger s' = file_logger s /\
  exists log, calls s' = calls s ++ log /\
              Forall (fun c => is_update c = false) log.

(** The files and the history of a state: what neither pass touches. *)
Definition same_files (s s' : State) : Prop :=
  disk s' = disk s /\ list_train_loss s' = list_train_loss s /\
  list_dev_loss s' = list_dev_loss s /\ list_dev_f1 s' = list_dev_f1 s /\
  file_logger s' = file_logger s.

(** The number of batches the train loader yields over the epochs
    [first .. first + count - 1]. *)
Definition batches_seen (first count : Z) : Z :=
  foldr Z.add 0
        ((fun e => Z.of_nat (length (train_loader e))) <$> seqZ first count).

(** The columns of a row of the log file. *)
Definition row_epoch (r : Z * Float * Float * Float) : Z := r.1.1.1.
Definition row_train_loss (r : Z * Float * Float * Float) : Float := r.1.1.2.
Definition row_dev_loss (r : Z * Float * Float * Float) : Float := r.1.2.
Definition row_dev_f1 (r : Z * Float * Float * Float) : Float := r.2.

(** ** The net along a pass

    What the collaborators compute on the batches of a pass, threading
    the net from batch to batch as the loop bodies do. *)

(** [scheduler.step()] when there is a scheduler. *)
Definition scheduler_fn (n : Net) : Net :=
  match scheduler_step with
  | Some f => f n
  | None => n
  end.

(** Lines 178-181 on the net: optimizer step, scheduler step, zeroed
    gradients. *)
Definition apply_update (n : Net) : Net :=
  optimizer_zero_grad (scheduler_fn (optimizer_step n)).

(** The labels of a moved batch: its first field. *)
Definition batch_labels (b : list (option Tensor)) : option Tensor :=
  to_device <$> default None (head b).

(** One training batch on the net [n]: the loss [criterion(model(batch),
    labels)] in training mode, and the net after [loss.backward()] and,
    when [update] holds, after the update of lines 178-181. *)
Definition train_batch_run (update : bool) (n : Net)
    (b : list (option Tensor)) : Float * Net :=
  let fw := batch_forward true n b in
  let loss := criterion fw.1 (batch_labels b) in
  let n1 := loss_backward fw.2 loss in
  (loss, if update then apply_update n1 else n1).

(** The losses of the batches of a TRAIN pass and the net after it. *)
Fixpoint train_run (update : bool) (n : Net)
    (batches : list (list (option Tensor))) : list Float * Net :=
  match batches with
  | [] => ([], n)
  | b :: rest =>
      let r := train_batch_run update n b in
      let rs := train_run update r.2 rest in
      (r.1 :: rs.1, rs.2)
  end.

(** The losses of the batches of an EVAL pass and the net after it. *)
Fixpoint eval_run (n : Net) (batches : list (list (option Tensor)))
  : list Float * Net :=
  match batches with
  | [] => ([], n)
  | b :: rest =>
      let fw := batch_forward false n b in
      let rs := eval_run fw.2 rest in
      (criterion fw.1 (batch_labels b) :: rs.1, rs.2)
  end.

(** The net after the TRAIN pass and the EVAL pass of an epoch. *)
Definition epoch_net (update : bool) (n : Net) (epoch : Z) : Net :=
  (eval_run (train_run update n (train_loader epoch)).2 (dev_loader epoch)).2.

(** The net after the epochs [first .. first + count - 1]. *)
Definition run_net (update : bool) (first count : Z) (n : Net) : Net :=
  fold_left (epoch_net update) (seqZ first count) n.

End Observations.

(** ** A small concrete set of collaborators

    Used to run the definitions above: tensors are lists of integers, one
    per example, floats are rationals, the net is a weight, the accumulated
    gradient and the number of dropout draws. *)

Module Toy.

Record net := Net3 { weight : Z; grad : Z; draws : Z }.

Definition tensor : Type := bool * list Z.

Definition forward (training : bool) (n : net)
    (input_ids att_mask e1_pos e2_pos : option tensor) : list (list Q) * net :=
  (match input_ids with
   | Some t =>
       map (fun v => [inject_Z ((v + weight n / 4) mod 3); inject_Z 1; inject_Z v]) t.2
   | None => []
   end,
   if training then Net3 (weight n) (grad n) (draws n + 1) else n).

Definition loss (logits : list (list Q)) (labels : option tensor) : Q :=
  (inject_Z (Z.of_nat (length logits)) / 4)%Q.

Definition f1_of (predictions : list string) : Q * Q * Q :=
  let hits := Z.of_nat (length (filter (fun p => p = "per:title") predictions)) in
  let f := (inject_Z hits / inject_Z (Z.of_nat (length predictions)))%Q in
  (f, f, f).

Definition batch_of (labels ids : list Z) : list (option tensor) :=
  [Some (false, labels); Some (false, ids); None; Some (false, ids); Some (false, ids)].

Definition train_batches : list (list (option tensor)) :=
  [batch_of [0; 1] [0; 3]; batch_of [1; 1] [1; 2];
   batch_of [2; 0] [4; 0]; batch_of [1; 2] [2; 2]].

Definition dev_batches : list (list (option tensor)) :=
  [batch_of [1; 0] [1; 0]; batch_of [1] [2]].

#[export] Instance collaborators : Collaborators := {|
  Tensor := tensor;
  Float := Q;
  Net := net;
  File := bool * net;
  to_device := fun t => (true, t.2);
  tensor_len := fun t => length t.2;
  model_forward := forward;
  criterion := loss;
  loss_backward := fun n _ => Net3 (weight n) (grad n + 1) (draws n);
  optimizer_step := fun n => Net3 (weight n + grad n) (grad n) (draws n);
  scheduler_step := Some (fun n => n);
  optimizer_zero_grad := fun n => Net3 (weight n) 0 (draws n);
  float_of_int := inject_Z;
  float_add := Qplus;
  float_div := Qdiv;
  float_mul := Qmult;
  float_gt := fun a b => negb (Qle_bool a b);
  torch_save := fun training n => (training, n);
  LABEL_TO_ID := [("no_relation", 0); ("per:title", 1); ("org:founded", 2)];
  train_loader := fun _ => train_batches;
  train_dataset_len := 8;
  dev_loader := fun _ => dev_batches;
  dev_dataset_len := 3;
  dataset_eval := f1_of;
|}.

(** The same collaborators over an empty training set. *)
Definition no_train_data : Collaborators := {|
  Tensor := tensor;
  Float := Q;
  Net := net;
  File := bool * net;
  to_device := fun t => (true, t.2);
  tensor_len := fun t => length t.2;
  model_forward := forward;
  criterion := loss;
  loss_backward := fun n _ => Net3 (weight n) (grad n + 1) (draws n);
  optimizer_step := fun n => Net3 (weight n + grad n) (grad n) (draws n);
  scheduler_step := Some (fun n => n);
  optimizer_zero_grad := fun n => Net3 (weight n) 0 (draws n);
  float_of_int := inject_Z;
  float_add := Qplus;
  float_div := Qdiv;
  float_mul := Qmult;
  float_gt := fun a b => negb (Qle_bool a b);
  torch_save := fun training n => (training, n);
  LABEL_TO_ID := [("no_relation", 0); ("per:title", 1); ("org:founded", 2)];
  train_loader := fun _ => [];
  train_dataset_len := 0;
  dev_loader := fun _ => dev_batches;
  dev_dataset_len := 3;
  dataset_eval := f1_of;
|}.

(** The state before [train]: a fresh model and an empty directory. *)
Definition start : State :=
  mkState true (Net3 0 0 0) ∅ [] 0 [] [] [] [].

Definition args (bs : Z) (epochs k : Z) : Args :=
  {| num_epoch := epochs; batch_size := bs; input_method := 3;
     output_method := 3; log_step := 50; save_epoch := k;
     save_dir := "./saved_models"; name := "test" |}.

(** [--input_method m] *)
Definition args_method (m : Z) : Args :=
  {| num_epoch := 1; batch_size := 64; input_method := m;
     output_method := 3; log_step := 50; save_epoch := 1;
     save_dir := "./saved_models"; name := "test" |}.

End Toy.


(** * Properties *)

Section MonadFacts.
Context {S : Type}.

Lemma bind_returned {A B} (m : M S A) (f : A -> M S B) s b s' :
  bind m f s = (Returned b, s') <->
  exists a s1, m s = (Returned a, s1) /\ f a s1 = (Returned b, s').
Proof.
  unfold bind. destruct (m s) as [[a|e] s1]; split.
  - eauto.
  - intros (a' & s1' & [= <- <-] & Hf). exact Hf.
  - discriminate.
  - intros (a' & s1' & [=] & _).
Qed.

Lemma bind_raised {A B} (m : M S A) (f : A -> M S B) s e s' :
  bind m f s = (Raised e, s') <->
  m s = (Raised e, s') \/
  exists a s1, m s = (Returned a, s1) /\ f a s1 = (Raised e, s').
Proof.
  unfold bind. destruct (m s) as [[a|e0] s1]; split.
  - eauto.
  - intros [[=] | (a' & s1' & [= <- <-] & Hf)]. exact Hf.
  - intros [= <- <-]. by left.
  - intros [[= <- <-] | (a' & s1' & [=] & _)]. reflexivity.
Qed.

Lemma outcome_returned {A} (r : outcome A * S) (a : A) :
  r.1 = Returned a -> r = (Returned a, r.2).
Proof. destruct r as [o s]. simpl. by intros ->. Qed.

Lemma for_each_app {A X} (body : A -> X -> M S A) l1 l2 a s :
  for_each body (l1 ++ l2) a s = bind (for_each body l1 a) (for_each body l2) s.
Proof.
  revert a s. induction l1 as [|x l1 IH]; intros a s; simpl.
  - reflexivity.
  - unfold bind. destruct (body a x s) as [[a'|e] s1]; [|reflexivity].
    rewrite IH. reflexivity.
Qed.

(** A loop whose body behaves alike on related states does so itself. *)
Lemma for_each_rel {A X} (R : S -> S -> Prop) (body : A -> X -> M S A) xs :
  (forall a x s t, R s t ->
     (body a x s).1 = (body a x t).1 /\ R (body a x s).2 (body a x t).2) ->
  forall a s t, R s t ->
    (for_each body xs a s).1 = (for_each body xs a t).1 /\
    R (for_each body xs a s).2 (for_each body xs a t).2.
Proof.
  intros Hbody. induction xs as [|x xs IH]; intros a s t HR; simpl.
  - done.
  - unfold bind. destruct (Hbody a x s t HR) as [Heq HR'].
    destruct (body a x s) as [[a1|e1] s1], (body a x t) as [[a2|e2] t1];
      simpl in *; try discriminate.
    + injection Heq as <-. by apply IH.
    + done.
Qed.

(** A property of the state that the body keeps is kept by the loop. *)
Lemma for_each_inv {A X} (P : S -> Prop) (body : A -> X -> M S A) xs :
  (forall a x s, P s -> P (body a x s).2) ->
  forall a s, P s -> P (for_each body xs a s).2.
Proof.
  intros Hbody. induction xs as [|x xs IH]; intros a s HP; simpl.
  - done.
  - unfold bind. specialize (Hbody a x s HP).
    destruct (body a x s) as [[a1|e1] s1]; simpl in *; [by apply IH|done].
Qed.

End MonadFacts.

(** Unfolds the calls and the monad down to functions of the state. *)
Ltac unfold_py :=
  unfold model_call, criterion_call, backward_call, optimizer_step_call,
    scheduler_step_call, zero_grad_call, call, py_mod, py_floordiv,
    modify, gets, ret, raise, bind in *.

Section Proofs.
Context `{Collaborators}.
Local Abbreviation Batch := (list (option Tensor)).

(** ** The device loop *)

Lemma move_fields_from (m k : nat) (i : Z) (b : Batch) :
  (k + m = length b)%nat ->
  fold_left move_field (seq k m) (i, b) =
  (if decide (m = 0%nat) then i else Z.of_nat (k + m) - 1,
   take k b ++ (fmap (M:=option) to_device <$> drop k b)).
Proof.
  revert k i b. induction m as [|m IH]; intros k i b Hlen; simpl.
  - rewrite drop_ge by lia. rewrite take_ge by lia. by rewrite app_nil_r.
  - destruct (lookup_lt_is_Some_2 b k) as [x Hx]; [lia|].
    assert (Hstep : move_field (i, b) k =
                    (Z.of_nat k, <[k := to_device <$> x]> b)).
    { unfold move_field; simpl. rewrite Hx. destruct x as [t|]; simpl.
      - reflexivity.
      - by rewrite list_insert_id. }
    rewrite Hstep, IH by (rewrite length_insert; lia).
    f_equal.
    + destruct m; simpl; lia.
    + rewrite drop_insert_lt by lia.
      rewrite (drop_S b x k Hx), fmap_cons.
      rewrite (take_S_r _ _ (to_device <$> x)).
      * rewrite take_insert_ge by lia. by rewrite <- app_assoc.
      * apply list_lookup_insert_eq. by eapply lookup_lt_Some.
Qed.

Lemma device_loop_spec (i : Z) (b : Batch) :
  device_loop i b =
  (if decide (length b = 0%nat) then i else Z.of_nat (length b) - 1,
   fmap (M:=option) to_device <$> b).
Proof.
  unfold device_loop. rewrite move_fields_from by lia. by rewrite take_0, drop_0.
Qed.

(** After a batch of five fields has been moved, [i] is 4 whatever the
    position of the batch in the pass. *)
Lemma device_loop_index (i : Z) (b : Batch) :
  length b = 5%nat -> (device_loop i b).1 = 4.
Proof. intros Hb. rewrite device_loop_spec, Hb. reflexivity. Qed.

(** ** One batch of the TRAIN pass *)

Lemma same_files_trans (s1 s2 s3 : State) :
  same_files s1 s2 -> same_files s2 s3 -> same_files s1 s3.
Proof.
  unfold same_files. intros (-> & -> & -> & -> & ->) (-> & -> & -> & -> & ->).
  by repeat split.
Qed.

Lemma train_step_returned args A tl i (b : Batch) s tl' s' :
  train_step args A tl (i, b) s = (Returned tl', s') ->
  length b = 5%nat /\ log_step args <> 0 /\ A <> 0 /\
  exists loss,
    tl' = py_add_loss tl loss /\
    calls s' = calls s ++ [Forward; Criterion loss; Backward] ++
               (if decide (5 mod A = 0) then step_calls else []) /\
    model_training s' = model_training s /\
    global_step s' = global_step s + 1 /\
    same_files s s'.
Proof.
  unfold train_step. cbn [fst snd]. rewrite device_loop_spec. cbn [fst snd].
  destruct b as [|x1 [|x2 [|x3 [|x4 [|x5 [|x6 b]]]]]]; try discriminate.
  cbn [fmap list_fmap length].
  destruct (decide (5%nat = 0%nat)) as [?|_]; [lia|].
  change (Z.of_nat 5 - 1 + 1) with 5.
  unfold_py. cbn [fst snd].
  destruct (decide (log_step args = 0)) as [|Hlog]; [discriminate|].
  destruct (decide (A = 0)) as [|HA]; [discriminate|].
  unfold step_calls.
  destruct (decide (5 mod A = 0)), scheduler_step; intros [= <- <-];
    (do 3 (split; [done|])); eexists; cbn;
    rewrite <- ?app_assoc; cbn; repeat split; reflexivity.
Qed.

Lemma train_step_total args A tl i (b : Batch) s :
  length b = 5%nat -> log_step args <> 0 -> A <> 0 ->
  exists tl' s', train_step args A tl (i, b) s = (Returned tl', s').
Proof.
  intros Hb Hlog HA. unfold train_step. cbn [fst snd].
  rewrite device_loop_spec. cbn [fst snd].
  destruct b as [|x1 [|x2 [|x3 [|x4 [|x5 [|x6 b]]]]]]; try discriminate.
  cbn [fmap list_fmap length]. unfold_py. cbn [fst snd].
  destruct (decide (log_step args = 0)); [done|].
  destruct (decide (A = 0)); [done|].
  destruct (decide (_ mod A = 0)), scheduler_step; do 2 eexists; reflexivity.
Qed.

(** With [grad_acc_steps = 0] the batch is run up to [loss.backward()] and
    line 177 raises. *)
Lemma train_step_zero args tl i (b : Batch) s :
  length b = 5%nat -> log_step args <> 0 ->
  exists loss s',
    train_step args 0 tl (i, b) s = (Raised (Exn ZeroDivisionError 177), s') /\
    calls s' = calls s ++ [Forward; Criterion loss; Backward] /\
    same_files s s'.
Proof.
  intros Hb Hlog. unfold train_step. cbn [fst snd].
  rewrite device_loop_spec. cbn [fst snd].
  destruct b as [|x1 [|x2 [|x3 [|x4 [|x5 [|x6 b]]]]]]; try discriminate.
  cbn [fmap list_fmap length]. unfold_py. cbn [fst snd].
  destruct (decide (log_step args = 0)); [done|].
  destruct (decide (0 = 0)); [|done].
  do 2 eexists. split; [reflexivity|]. cbn. rewrite <- !app_assoc.
  split; [reflexivity | by repeat split].
Qed.

(** ** The TRAIN pass *)

Lemma enumerate_snd {A} (l : list A) : (enumerate l).*2 = l.
Proof. unfold enumerate. apply snd_zip. rewrite length_seqZ. lia. Qed.

Lemma enumerate_length {A} (l : list A) : length (enumerate l) = length l.
Proof. rewrite <- (enumerate_snd l) at 2. by rewrite length_fmap. Qed.

Lemma train_loop_returned args A (ibs : list (Z * Batch)) tl s tl' s' :
  for_each (train_step args A) ibs tl s = (Returned tl', s') ->
  Forall (fun b : Batch => length b = 5%nat) ibs.*2 /\
  (ibs <> [] -> log_step args <> 0 /\ A <> 0) /\
  exists losses,
    length losses = length ibs /\
    tl' = fold_left py_add_loss losses tl /\
    calls s' = calls s ++ concat (map (batch_calls A) losses) /\
    model_training s' = model_training s /\
    global_step s' = global_step s + Z.of_nat (length ibs) /\
    same_files s s'.
Proof.
  revert tl s. induction ibs as [|[i b] ibs IH]; intros tl s; simpl.
  - intros [= <- <-]. split; [constructor|]. split; [done|].
    exists []. simpl. rewrite app_nil_r, Z.add_0_r.
    repeat split; reflexivity.
  - intros (tl1 & s1 & Hstep & Hrest)%bind_returned.
    apply train_step_returned in Hstep
      as (Hb & Hlog & HA & loss & -> & Hc1 & Ht1 & Hg1 & Hf1).
    apply IH in Hrest as (Hbs & _ & losses & Hlen & -> & Hc & Ht & Hg & Hf).
    split; [by constructor|]. split; [done|].
    exists (loss :: losses). simpl. rewrite Hlen.
    split; [done|]. split; [done|].
    split; [rewrite Hc, Hc1; unfold batch_calls; by rewrite <- !app_assoc|].
    split; [congruence|]. split; [lia|].
    by eapply same_files_trans.
Qed.

Lemma train_loop_total args A (ibs : list (Z * Batch)) tl s :
  Forall (fun b : Batch => length b = 5%nat) ibs.*2 ->
  log_step args <> 0 -> A <> 0 ->
  exists tl' s', for_each (train_step args A) ibs tl s = (Returned tl', s').
Proof.
  intros Hbs Hlog HA. revert tl s.
  induction ibs as [|[i b] ibs IH]; intros tl s; simpl.
  - by do 2 eexists.
  - apply Forall_cons in Hbs as [Hb Hbs].
    destruct (train_step_total args A tl i b s Hb Hlog HA) as (tl1 & s1 & Hstep).
    destruct (IH Hbs tl1 s1) as (tl' & s' & Hrest).
    exists tl', s'. apply bind_returned. eauto.
Qed.

Lemma train_pass_returned args A (batches : list Batch) s tl s' :
  train_pass args A batches s = (Returned tl, s') ->
  Forall (fun b : Batch => length b = 5%nat) batches /\
  (batches <> [] -> log_step args <> 0 /\ A <> 0) /\
  exists losses,
    length losses = length batches /\
    tl = fold_left py_add_loss losses (PyInt 0) /\
    calls s' = calls s ++ ModelTrain :: concat (map (batch_calls A) losses) /\
    model_training s' = true /\
    global_step s' = global_step s + Z.of_nat (length batches) /\
    same_files s s'.
Proof.
  unfold train_pass. intros (? & s1 & [= <-]%(f_equal snd) & H1)%bind_returned.
  apply bind_returned in H1 as (? & s2 & [= <-]%(f_equal snd) & Hloop).
  apply train_loop_returned in Hloop
    as (Hbs & Hne & losses & Hlen & -> & Hc & Ht & Hg & Hf).
  rewrite enumerate_snd in Hbs. rewrite enumerate_length in Hlen, Hg.
  split; [done|]. split.
  { intros Hb. apply Hne. intros Hnil. apply Hb.
    apply (f_equal length) in Hnil. rewrite enumerate_length in Hnil.
    by destruct batches. }
  exists losses. split; [done|]. split; [done|].
  split; [rewrite Hc; cbn; by rewrite <- app_assoc|].
  split; [by rewrite Ht|]. split; [by rewrite Hg|]. exact Hf.
Qed.

Lemma train_pass_total args A (batches : list Batch) s :
  Forall (fun b : Batch => length b = 5%nat) batches ->
  log_step args <> 0 -> A <> 0 ->
  exists tl s', train_pass args A batches s = (Returned tl, s').
Proof.
  intros Hbs Hlog HA. unfold train_pass.
  rewrite <- (enumerate_snd batches) in Hbs.
  edestruct (train_loop_total args A (enumerate batches)) as (tl & s' & Hloop);
    [done..|].
  exists tl, s'. apply bind_returned. do 2 eexists. split; [reflexivity|].
  apply bind_returned. do 2 eexists. split; [reflexivity|]. exact Hloop.
Qed.

(** ** The EVAL pass *)

Lemma eval_step_returned acc i (b : Batch) s acc' s' :
  eval_step acc (i, b) s = (Returned acc', s') ->
  length b = 5%nat /\
  let fw := batch_forward (model_training s) (net s) b in
  let loss := criterion fw.1 (to_device <$> default None (head b)) in
  exists preds,
    mapM argmax_row fw.1 = Some preds /\
    acc' = (acc.1 ++ preds, py_add_loss acc.2 loss) /\
    net s' = fw.2 /\
    calls s' = calls s ++ eval_calls loss /\
    model_training s' = model_training s /\
    global_step s' = global_step s /\
    same_files s s'.
Proof.
  unfold eval_step, batch_forward. cbn [fst snd].
  rewrite !device_loop_spec. cbn [fst snd].
  destruct b as [|x1 [|x2 [|x3 [|x4 [|x5 [|x6 b]]]]]]; try discriminate.
  cbn [fmap list_fmap length head default]. unfold argmax_rows. unfold_py.
  cbn [fst snd].
  destruct (mapM argmax_row _) as [preds|] eqn:Hpreds; [|discriminate].
  intros [= <- <-]. split; [done|]. exists preds. cbn.
  rewrite <- !app_assoc. by repeat split.
Qed.

Lemma eval_loop_returned (ibs : list (Z * Batch)) acc s acc' s' :
  for_each eval_step ibs acc s = (Returned acc', s') ->
  Forall (fun b : Batch => length b = 5%nat) ibs.*2 /\
  exists losses,
    length losses = length ibs /\
    acc'.2 = fold_left py_add_loss losses acc.2 /\
    calls s' = calls s ++ concat (map eval_calls losses) /\
    model_training s' = model_training s /\
    global_step s' = global_step s /\
    same_files s s'.
Proof.
  revert acc s. induction ibs as [|[i b] ibs IH]; intros acc s; simpl.
  - intros [= <- <-]. split; [constructor|]. exists []. simpl.
    rewrite app_nil_r. by repeat split.
  - intros (acc1 & s1 & Hstep & Hrest)%bind_returned.
    apply eval_step_returned in Hstep
      as (Hb & preds & _ & -> & _ & Hc1 & Ht1 & Hg1 & Hf1).
    apply IH in Hrest as (Hbs & losses & Hlen & Hl & Hc & Ht & Hg & Hf).
    split; [by constructor|]. eexists (_ :: losses). simpl. rewrite Hlen.
    split; [done|]. split; [exact Hl|].
    split; [rewrite Hc, Hc1; by rewrite <- !app_assoc|].
    split; [congruence|]. split; [congruence|].
    by eapply same_files_trans.
Qed.

Lemma eval_pass_returned (batches : list Batch) s r s' :
  eval_pass batches s = (Returned r, s') ->
  Forall (fun b : Batch => length b = 5%nat) batches /\
  exists losses,
    length losses = length batches /\
    r.2 = fold_left py_add_loss losses (PyInt 0) /\
    calls s' = calls s ++ ModelEval :: concat (map eval_calls losses) /\
    model_training s' = false /\
    global_step s' = global_step s /\
    same_files s s'.
Proof.
  unfold eval_pass. intros (? & s1 & [= <-]%(f_equal snd) & H1)%bind_returned.
  apply bind_returned in H1 as (? & s2 & [= <-]%(f_equal snd) & H2).
  apply bind_returned in H2 as (acc & s3 & Hloop & H3).
  apply bind_returned in H3 as (ls & s4 & Hlab & [= <- <-]).
  unfold lookup_labels in Hlab.
  destruct (mapM _ _); [|discriminate]. injection Hlab as <- <-.
  apply eval_loop_returned in Hloop
    as (Hbs & losses & Hlen & Hl & Hc & Ht & Hg & Hf).
  rewrite enumerate_snd in Hbs. rewrite enumerate_length in Hlen.
  split; [done|]. exists losses. split; [done|]. split; [exact Hl|].
  split; [rewrite Hc; cbn; by rewrite <- app_assoc|].
  split; [by rewrite Ht|]. split; [by rewrite Hg|]. exact Hf.
Qed.

(** ** Totals and the report *)

Lemma total_value_fold (ls : list Float) (t : PyNum Float) :
  total_value (fold_left py_add_loss ls t) =
  fold_left float_add ls (total_value t).
Proof.
  revert t. induction ls as [|l ls IH]; intros t; simpl; [done|].
  rewrite IH. by destruct t.
Qed.

Lemma total_value_sum (ls : list Float) :
  total_value (fold_left py_add_loss ls (PyInt 0)) = sum_losses ls.
Proof. apply total_value_fold. Qed.

Lemma normalized_loss_returned t n bs line (s : State) x s' :
  normalized_loss t n bs line s = (Returned x, s') ->
  s' = s /\ x = normalize (total_value t) n bs.
Proof.
  unfold normalized_loss, normalize, ret, raise.
  destruct t; [destruct (decide (n = 0)); [discriminate|]|];
    intros [= <- <-]; done.
Qed.

Lemma losses_of_app (cs1 cs2 : list (Call Float)) :
  losses_of (cs1 ++ cs2) = losses_of cs1 ++ losses_of cs2.
Proof. unfold losses_of. apply omap_app. Qed.

Lemma losses_of_step_calls : losses_of step_calls = [].
Proof. unfold step_calls. by destruct scheduler_step. Qed.

Lemma losses_of_batch_calls A (ls : list Float) :
  losses_of (concat (map (batch_calls A) ls)) = ls.
Proof.
  induction ls as [|l ls IH]; [done|]. cbn [map concat].
  rewrite losses_of_app, IH. unfold batch_calls.
  rewrite losses_of_app. case_decide; [rewrite losses_of_step_calls|]; done.
Qed.

Lemma losses_of_eval_calls (ls : list Float) :
  losses_of (concat (map eval_calls ls)) = ls.
Proof.
  induction ls as [|l ls IH]; simpl; [done|].
  change (losses_of (Forward :: Criterion l :: concat (map eval_calls ls)))
    with (l :: losses_of (concat (map eval_calls ls))).
  by rewrite IH.
Qed.

(** ** The checkpoint files *)

Lemma string_length_app (s t : string) :
  String.length (s +:+ t) = (String.length s + String.length t)%nat.
Proof.
  induction s as [|a s IH]; [done|].
  change (String a s +:+ t) with (String a (s +:+ t)). simpl. by rewrite IH.
Qed.

Lemma string_app_inj_r (s1 s2 t : string) : s1 +:+ t = s2 +:+ t -> s1 = s2.
Proof.
  revert s2. induction s1 as [|a s1 IH]; intros [|b s2] Heq.
  - done.
  - apply (f_equal String.length) in Heq.
    change (String.length t = String.length (String b (s2 +:+ t))) in Heq.
    simpl in Heq. rewrite string_length_app in Heq. lia.
  - apply (f_equal String.length) in Heq.
    change (String.length (String a (s1 +:+ t)) = String.length t) in Heq.
    simpl in Heq. rewrite string_length_app in Heq. lia.
  - change (String a (s1 +:+ t) = String b (s2 +:+ t)) in Heq.
    injection Heq as -> Heq. f_equal. by apply IH.
Qed.

(** The files of different epochs are different files. *)
Lemma ckpt_path_inj args (e e' : Z) :
  ckpt_path args e = ckpt_path args e' -> e = e'.
Proof.
  unfold ckpt_path. intros Heq.
  apply (inj (String.app _)) in Heq. apply (inj (String.app _)) in Heq.
  apply string_app_inj_r in Heq. by apply (inj pretty) in Heq.
Qed.

(** No epoch's file is the best-model file. *)
Lemma ckpt_path_ne_best args (e : Z) : ckpt_path args e <> best_path args.
Proof.
  unfold ckpt_path, best_path. intros Heq.
  apply (inj (String.app _)) in Heq.
  remember (pretty e +:+ ".pt") as rest. discriminate Heq.
Qed.

Lemma checkpoint_eq args epoch dev_f1 s :
  let bytes := torch_save (model_training s) (net s) in
  let new_best := is_new_best dev_f1 (list_dev_f1 s) in
  checkpoint args epoch dev_f1 s =
  if decide (save_epoch args = 0)
  then (Raised (Exn ZeroDivisionError 237),
        set_disk (disk_promoted args epoch new_best bytes (disk s)) s)
  else (Returned tt,
        set_disk (disk_after_checkpoint args epoch new_best bytes (disk s)) s).
Proof.
  pose proof (ckpt_path_ne_best args epoch) as Hne.
  unfold checkpoint, save_model, copyfile, os_remove,
    disk_after_checkpoint, disk_promoted.
  unfold_py. cbn [disk set_disk list_dev_f1].
  destruct (is_new_best dev_f1 (list_dev_f1 s)).
  - destruct (decide (ckpt_path args epoch = best_path args)); [done|].
    cbn [disk set_disk]. rewrite lookup_insert_eq. cbn [disk set_disk].
    destruct (decide (save_epoch args = 0)); [done|].
    destruct (decide (epoch mod save_epoch args = 0)); [done|].
    cbn [disk set_disk].
    rewrite lookup_insert_ne by done. by rewrite lookup_insert_eq.
  - destruct (decide (save_epoch args = 0)); [done|].
    destruct (decide (epoch mod save_epoch args = 0)); [done|].
    cbn [disk set_disk]. by rewrite lookup_insert_eq.
Qed.

Lemma checkpoint_returned args epoch dev_f1 s s' :
  checkpoint args epoch dev_f1 s = (Returned tt, s') ->
  save_epoch args <> 0 /\
  s' = set_disk (disk_after_checkpoint args epoch
                   (is_new_best dev_f1 (list_dev_f1 s))
                   (torch_save (model_training s) (net s)) (disk s)) s.
Proof.
  rewrite checkpoint_eq. case_decide; [discriminate|].
  intros [= <-]. done.
Qed.

(** ** One epoch *)

Lemma epoch_body_returned args A epoch s s' :
  epoch_body args A tt epoch s = (Returned tt, s') ->
  exists tl s1 r s2,
    train_pass args A (train_loader epoch) s = (Returned tl, s1) /\
    eval_pass (dev_loader epoch) s1 = (Returned r, s2) /\
    save_epoch args <> 0 /\
    let train_loss := normalize (total_value tl) train_dataset_len
                                (batch_size args) in
    let dev_loss := normalize (total_value r.2) dev_dataset_len
                              (batch_size args) in
    let dev_f1 := (dataset_eval r.1).2 in
    s' = append_history train_loss dev_loss dev_f1
           (set_disk (disk_after_checkpoint args epoch
                        (is_new_best dev_f1 (list_dev_f1 s2))
                        (torch_save (model_training s2) (net s2)) (disk s2))
              (log_row (epoch, train_loss, dev_loss, dev_f1) s2)).
Proof.
  unfold epoch_body.
  intros (tl & s1 & Htrain & H1)%bind_returned.
  apply bind_returned in H1 as (r & s2 & Heval & H2).
  apply bind_returned in H2 as (x & s3 & Hx & H3).
  apply normalized_loss_returned in Hx as [-> ->].
  apply bind_returned in H3 as (y & s4 & Hy & H4).
  apply normalized_loss_returned in Hy as [-> ->].
  apply bind_returned in H4 as (? & s5 & [= <-]%(f_equal snd) & H5).
  apply bind_returned in H5 as ([] & s6 & Hck & [= <-]).
  apply checkpoint_returned in Hck as [Hk ->].
  exists tl, s1, r, s2. done.
Qed.

Lemma disk_after_checkpoint_other args e nb bytes (d : gmap string File) p :
  p <> ckpt_path args e -> p <> best_path args ->
  disk_after_checkpoint args e nb bytes d !! p = d !! p.
Proof.
  intros Hc Hb. unfold disk_after_checkpoint, disk_promoted.
  destruct nb; case_decide;
    rewrite ?lookup_delete_ne, ?lookup_insert_ne by done; done.
Qed.

Lemma disk_after_checkpoint_ckpt args e nb bytes (d : gmap string File) :
  disk_after_checkpoint args e nb bytes d !! ckpt_path args e =
  if decide (e mod save_epoch args = 0) then Some bytes else None.
Proof.
  pose proof (ckpt_path_ne_best args e).
  unfold disk_after_checkpoint, disk_promoted.
  destruct nb; case_decide; rewrite ?lookup_delete_eq; try done.
  - rewrite lookup_insert_ne by done. by rewrite lookup_insert_eq.
  - by rewrite lookup_insert_eq.
Qed.

Lemma disk_after_checkpoint_best args e nb bytes (d : gmap string File) :
  disk_after_checkpoint args e nb bytes d !! best_path args =
  if nb then Some bytes else d !! best_path args.
Proof.
  pose proof (ckpt_path_ne_best args e).
  unfold disk_after_checkpoint, disk_promoted.
  destruct nb; case_decide;
    rewrite ?lookup_delete_ne by done;
    rewrite ?lookup_insert_eq, ?lookup_insert_ne by done; done.
Qed.

(** What one epoch does to the files and to the list of dev F1 values. *)
Lemma epoch_body_files args A epoch s s' :
  epoch_body args A tt epoch s = (Returned tt, s') ->
  save_epoch args <> 0 /\
  exists dev_f1,
    list_dev_f1 s' = list_dev_f1 s ++ [dev_f1] /\
    disk s' = disk_after_checkpoint args epoch
                (is_new_best dev_f1 (list_dev_f1 s))
                (torch_save (model_training s') (net s')) (disk s).
Proof.
  intros (tl & s1 & r & s2 & Htrain & Heval & Hk & ->)%epoch_body_returned.
  apply train_pass_returned in Htrain
    as (_ & _ & _ & _ & _ & _ & _ & _ & (Hd1 & _ & _ & Hf1 & _)).
  apply eval_pass_returned in Heval
    as (_ & _ & _ & _ & _ & _ & _ & (Hd2 & _ & _ & Hf2 & _)).
  split; [done|]. eexists. cbn. rewrite Hf2, Hf1, Hd2, Hd1. done.
Qed.

(** ** The epoch loop *)

Lemma run_epochs_zero args A first s :
  run_epochs args A first 0 s = (Returned tt, s).
Proof. reflexivity. Qed.

Lemma run_epochs_succ args A first n s s' :
  0 <= n ->
  run_epochs args A first (n + 1) s = (Returned tt, s') <->
  exists s1, run_epochs args A first n s = (Returned tt, s1) /\
             epoch_body args A tt (first + n) s1 = (Returned tt, s').
Proof.
  intros Hn. unfold run_epochs. rewrite seqZ_app by lia.
  rewrite for_each_app, bind_returned.
  rewrite (seqZ_cons _ 1), (seqZ_nil _ (Z.pred 1)) by lia. cbn [for_each].
  split.
  - intros ([] & s1 & Hrun & Hbody). exists s1. split; [done|].
    apply bind_returned in Hbody as ([] & s2 & Hbody & [= <-]). done.
  - intros (s1 & Hrun & Hbody). exists tt, s1. split; [done|].
    apply bind_returned. by exists tt, s'.
Qed.

(** ** Start-up: method names and the accumulation factor *)

Lemma py_index_in_range {A} (l : list A) (i line : Z) (s : State) :
  - Z.of_nat (length l) <= i < Z.of_nat (length l) ->
  exists x, py_index l i line s = (Returned x, s).
Proof.
  intros Hi. unfold py_index. cbn zeta.
  set (j := if decide (i < 0) then Z.of_nat (length l) + i else i).
  assert (0 <= j < Z.of_nat (length l)) as Hj by (unfold j; case_decide; lia).
  destruct (decide (0 <= j < Z.of_nat (length l))); [|done].
  destruct (lookup_lt_is_Some_2 l (Z.to_nat j)) as [x Hx]; [lia|].
  rewrite Hx. by exists x.
Qed.

Lemma py_index_out_of_range {A} (l : list A) (i line : Z) (s : State) :
  ~ (- Z.of_nat (length l) <= i < Z.of_nat (length l)) ->
  py_index l i line s = (Raised (Exn IndexError line), s).
Proof.
  intros Hi. unfold py_index. cbn zeta.
  repeat case_decide; try lia; reflexivity.
Qed.

Lemma print_methods_in_range args (s : State) :
  -4 <= input_method args <= 3 -> -4 <= output_method args <= 3 ->
  print_methods args s = (Returned tt, s).
Proof.
  intros Hi Ho. unfold print_methods.
  destruct (py_index_in_range input_method_name (input_method args) 62 s)
    as [x Hx]; [simpl; lia|].
  destruct (py_index_in_range output_method_name (output_method args) 63 s)
    as [y Hy]; [simpl; lia|].
  unfold bind. by rewrite Hx, Hy.
Qed.

Lemma print_methods_out_of_range args (s : State) :
  ~ (-4 <= input_method args <= 3 /\ -4 <= output_method args <= 3) ->
  exists line, (line = 62 \/ line = 63) /\
    print_methods args s = (Raised (Exn IndexError line), s).
Proof.
  intros Hout. unfold print_methods.
  destruct (decide (-4 <= input_method args <= 3)) as [Hi|Hi].
  - destruct (py_index_in_range input_method_name (input_method args) 62 s)
      as [x Hx]; [simpl; lia|].
    exists 63. split; [by right|]. unfold bind. rewrite Hx.
    rewrite py_index_out_of_range; [done|]. simpl. lia.
  - exists 62. split; [by left|]. unfold bind.
    rewrite py_index_out_of_range; [done|]. simpl. lia.
Qed.

(** ** The net and the losses along the passes *)

Lemma train_step_net args A tl i (b : Batch) (s : State) tl' s' :
  model_training s = true ->
  train_step args A tl (i, b) s = (Returned tl', s') ->
  let r := train_batch_run (bool_decide (5 mod A = 0)) (net s) b in
  tl' = py_add_loss tl r.1 /\ net s' = r.2 /\
  calls s' = calls s ++ batch_calls A r.1.
Proof.
  intros Ht. unfold train_step, train_batch_run, batch_forward, batch_labels,
    batch_calls, apply_update, scheduler_fn, step_calls.
  cbn [fst snd]. rewrite !device_loop_spec. cbn [fst snd].
  destruct b as [|x1 [|x2 [|x3 [|x4 [|x5 [|x6 b]]]]]]; try discriminate.
  cbn [fmap list_fmap length head default].
  destruct (decide (5%nat = 0%nat)) as [?|_]; [lia|].
  change (Z.of_nat 5 - 1 + 1) with 5.
  unfold_py. cbn [fst snd]. rewrite Ht.
  destruct (decide (log_step args = 0)); [discriminate|].
  destruct (decide (A = 0)); [discriminate|].
  destruct (decide (5 mod A = 0)) as [Hd|Hd];
    [rewrite (bool_decide_eq_true_2 _ Hd)
    |rewrite (bool_decide_eq_false_2 _ Hd)];
    destruct scheduler_step; intros [= <- <-];
    cbn; rewrite <- ?app_assoc; done.
Qed.

Lemma train_loop_net args A (ibs : list (Z * Batch)) tl (s : State) tl' s' :
  model_training s = true ->
  for_each (train_step args A) ibs tl s = (Returned tl', s') ->
  let r := train_run (bool_decide (5 mod A = 0)) (net s) ibs.*2 in
  tl' = fold_left py_add_loss r.1 tl /\ net s' = r.2 /\
  calls s' = calls s ++ concat (map (batch_calls A) r.1).
Proof.
  revert tl s. induction ibs as [|[i b] ibs IH]; intros tl s Ht.
  - intros [= <- <-]. cbn. by rewrite app_nil_r.
  - cbn [for_each]. intros (tl1 & s1 & Hstep & Hrest)%bind_returned.
    pose proof (train_step_returned _ _ _ _ _ _ _ _ Hstep)
      as (_ & _ & _ & _ & _ & _ & Ht1 & _).
    apply (train_step_net _ _ _ _ _ _ _ _ Ht) in Hstep as (-> & Hn1 & Hc1).
    apply IH in Hrest as (-> & Hn & Hc); [|congruence].
    cbn [fmap list_fmap snd train_run fst map concat]. rewrite Hn1 in *.
    split; [done|]. split; [done|].
    rewrite Hc, Hc1. by rewrite <- app_assoc.
Qed.

Lemma train_pass_net args A (batches : list Batch) (s : State) tl s' :
  train_pass args A batches s = (Returned tl, s') ->
  let r := train_run (bool_decide (5 mod A = 0)) (net s) batches in
  tl = fold_left py_add_loss r.1 (PyInt 0) /\ net s' = r.2 /\
  calls s' = calls s ++ ModelTrain :: concat (map (batch_calls A) r.1).
Proof.
  unfold train_pass. intros (? & s1 & [= <-]%(f_equal snd) & H1)%bind_returned.
  apply bind_returned in H1 as (? & s2 & [= <-]%(f_equal snd) & Hloop).
  apply train_loop_net in Hloop as (-> & Hn & Hc); [|done].
  rewrite enumerate_snd in *. cbn in Hn, Hc.
  split; [done|]. split; [exact Hn|]. rewrite Hc. by rewrite <- app_assoc.
Qed.

Lemma train_run_length update n (batches : list Batch) :
  length (train_run update n batches).1 = length batches.
Proof.
  revert n. induction batches as [|b batches IH]; intros n; [done|].
  cbn [train_run fst length]. by rewrite IH.
Qed.

Lemma eval_loop_net (ibs : list (Z * Batch)) acc (s : State) acc' s' :
  model_training s = false ->
  for_each eval_step ibs acc s = (Returned acc', s') ->
  let r := eval_run (net s) ibs.*2 in
  acc'.2 = fold_left py_add_loss r.1 acc.2 /\ net s' = r.2 /\
  calls s' = calls s ++ concat (map eval_calls r.1).
Proof.
  revert acc s. induction ibs as [|[i b] ibs IH]; intros acc s Ht.
  - intros [= <- <-]. cbn. by rewrite app_nil_r.
  - cbn [for_each]. intros (acc1 & s1 & Hstep & Hrest)%bind_returned.
    apply eval_step_returned in Hstep
      as (_ & preds & _ & Hacc & Hn1 & Hc1 & Ht1 & _).
    rewrite Ht in Hacc, Hn1, Hc1, Ht1. subst acc1.
    apply IH in Hrest as (Hl & Hn & Hc); [|done].
    cbn [fmap list_fmap snd eval_run fst map concat].
    rewrite Hn1 in *. split; [exact Hl|]. split; [exact Hn|].
    rewrite Hc, Hc1. by rewrite <- app_assoc.
Qed.

Lemma eval_pass_net (batches : list Batch) (s : State) r s' :
  eval_pass batches s = (Returned r, s') ->
  let e := eval_run (net s) batches in
  r.2 = fold_left py_add_loss e.1 (PyInt 0) /\ net s' = e.2 /\
  calls s' = calls s ++ ModelEval :: concat (map eval_calls e.1).
Proof.
  unfold eval_pass. intros (? & s1 & [= <-]%(f_equal snd) & H1)%bind_returned.
  apply bind_returned in H1 as (? & s2 & [= <-]%(f_equal snd) & H2).
  apply bind_returned in H2 as (acc & s3 & Hloop & H3).
  apply bind_returned in H3 as (ls & s4 & Hlab & [= <- <-]).
  unfold lookup_labels in Hlab.
  destruct (mapM _ _); [|discriminate]. injection Hlab as <- <-.
  apply eval_loop_net in Hloop as (Hl & Hn & Hc); [|done].
  rewrite enumerate_snd in *. cbn in Hl, Hn, Hc.
  split; [exact Hl|]. split; [exact Hn|]. rewrite Hc. by rewrite <- app_assoc.
Qed.

Lemma eval_run_length n (batches : list Batch) :
  length (eval_run n batches).1 = length batches.
Proof.
  revert n. induction batches as [|b batches IH]; intros n; [done|].
  cbn [eval_run fst length]. by rewrite IH.
Qed.

(** The net a completed epoch leaves: the checkpoint step and the report
    do not touch it. *)
Lemma epoch_body_net args A epoch (s s' : State) :
  epoch_body args A tt epoch s = (Returned tt, s') ->
  net s' = epoch_net (bool_decide (5 mod A = 0)) (net s) epoch.
Proof.
  intros (tl & s1 & r & s2 & Htrain & Heval & _ & ->)%epoch_body_returned.
  apply train_pass_net in Htrain as (_ & Hn1 & _).
  apply eval_pass_net in Heval as (_ & Hn2 & _).
  cbn. unfold epoch_net. by rewrite Hn2, Hn1.
Qed.

End Proofs.

(** * The claims *)

(** C5, as amended: for every non-zero [--batch_size] the accumulation
    factor of line 81 is the floor of [64 / batch_size]; it is the ceiling
    of that quotient exactly when the batch size divides 64. *)
Theorem grad_acc_steps_floor `{Collaborators} (bs : Z) (s : State) :
  bs <> 0 ->
  exists A, grad_acc_steps bs s = (Returned A, s) /\
    (0 < bs -> A * bs <= 64 < (A + 1) * bs) /\
    (bs < 0 -> (A + 1) * bs < 64 <= A * bs) /\
    (A = spec_accumulation_factor bs <-> (bs | 64)).
Proof.
  intros Hbs. exists (64 / bs). unfold grad_acc_steps, py_floordiv.
  destruct (decide (bs = 0)); [done|]. split; [reflexivity|].
  pose proof (Z.div_mod 64 bs Hbs) as Hdm.
  split; [|split].
  - intros Hpos. pose proof (Z.mod_pos_bound 64 bs Hpos). nia.
  - intros Hneg. pose proof (Z.mod_neg_bound 64 bs Hneg). nia.
  - unfold spec_accumulation_factor, ceil_div.
    rewrite <- (Z.mod_divide 64 bs Hbs).
    destruct (decide (64 mod bs = 0)) as [Hz|Hnz].
    + rewrite (Z.div_opp_l_z 64 bs Hbs Hz). split; [done|lia].
    + rewrite (Z.div_opp_l_nz 64 bs Hbs Hnz). split; [lia|done].
Qed.

Lemma grad_acc_steps_floor_witness :
  48 <> 0 /\
  exists A, grad_acc_steps 48 Toy.start = (Returned A, Toy.start) /\
    (0 < 48 -> A * 48 <= 64 < (A + 1) * 48) /\
    (48 < 0 -> (A + 1) * 48 < 64 <= A * 48) /\
    (A = spec_accumulation_factor 48 <-> (48 | 64)).
Proof.
  split; [lia|]. apply (grad_acc_steps_floor 48 Toy.start). lia.
Defined.

(** C5 as stated fails: with [--batch_size 48] line 81 gives 1, and the
    ceiling of [64 / 48] is 2. *)
Lemma grad_acc_steps_not_ceil :
  grad_acc_steps 48 Toy.start = (Returned 1, Toy.start) /\
  spec_accumulation_factor 48 = 2 /\
  grad_acc_steps 48 Toy.start <>
    (Returned (spec_accumulation_factor 48), Toy.start).
Proof. split; [reflexivity|]. split; [reflexivity|]. discriminate. Qed.

(** C7, as amended: a configuration whose input-method or output-method
    selector is outside [-4 .. 3], the index range of the four-entry name
    tables, is rejected with [IndexError] at the name lookup of lines
    62-63, before anything else of [train] has run. *)
Theorem out_of_range_method_rejected `{Collaborators} (args : Args) (s : State) :
  ~ (-4 <= input_method args <= 3 /\ -4 <= output_method args <= 3) ->
  exists line, (line = 62 \/ line = 63) /\
    train args s = (Raised (Exn IndexError line), s).
Proof.
  intros Hout.
  destruct (print_methods_out_of_range args s Hout) as (line & Hline & Hp).
  exists line. split; [done|]. unfold train. apply bind_raised. by left.
Qed.

Lemma out_of_range_method_rejected_witness :
  ~ (-4 <= input_method (Toy.args_method 4) <= 3 /\
     -4 <= output_method (Toy.args_method 4) <= 3) /\
  exists line, (line = 62 \/ line = 63) /\
    train (Toy.args_method 4) Toy.start = (Raised (Exn IndexError line), Toy.start).
Proof.
  assert (Hout : ~ (-4 <= input_method (Toy.args_method 4) <= 3 /\
                    -4 <= output_method (Toy.args_method 4) <= 3))
    by (simpl; lia).
  split; [exact Hout|].
  exact (out_of_range_method_rejected (Toy.args_method 4) Toy.start Hout).
Defined.

(** C7 as stated fails: [--input_method 0] is none of the three declared
    methods, yet the lookup of line 62 returns the empty name and the run
    goes on to train and evaluate. *)
Lemma method_zero_not_rejected :
  input_method (Toy.args_method 0) <> 1 /\
  input_method (Toy.args_method 0) <> 2 /\
  input_method (Toy.args_method 0) <> 3 /\
  print_methods (Toy.args_method 0) Toy.start = (Returned tt, Toy.start) /\
  (train (Toy.args_method 0) Toy.start).1 = Returned tt /\
  optimizer_steps (calls (train (Toy.args_method 0) Toy.start).2) = 4%nat.
Proof. repeat split; try discriminate; vm_compute; reflexivity. Qed.

Lemma optimizer_steps_app `{Collaborators} (cs1 cs2 : list (Call Float)) :
  optimizer_steps (cs1 ++ cs2) = (optimizer_steps cs1 + optimizer_steps cs2)%nat.
Proof. unfold optimizer_steps. by rewrite filter_app, length_app. Qed.

Lemma divides_five (A : Z) : 0 < A -> ((A | 5) <-> A = 1 \/ A = 5).
Proof.
  intros HA. split.
  - intros [k Hk]. assert (0 < k) by nia. assert (A <= 5) by nia.
    assert (A = 1 \/ A = 2 \/ A = 3 \/ A = 4 \/ A = 5) as Hc by lia.
    destruct Hc as [->|[->|[->|[->| ->]]]]; lia.
  - intros [-> | ->]; [exists 5 | exists 1]; lia.
Qed.

(** C2: in a TRAIN pass over batches of five fields, the device loop
    leaves [i = 4] for every batch, so line 177 tests [(4 + 1) % A == 0]
    for all of them: when [A] divides 5 every batch is followed by an
    optimizer step, a scheduler step (if there is a scheduler) and the
    zeroing of the gradients, otherwise no batch is; a positive [A]
    divides 5 exactly when it is 1 or 5.  The steps are those of the log
    of calls and those applied to the net: the losses and the net after
    the pass are the ones [train_run] computes from the net before it,
    with the update after every batch or after none. *)
Theorem train_pass_steps_every_batch_or_never `{Collaborators}
    (args : Args) (A : Z) (batches : list (list (option Tensor))) (s : State) :
  A <> 0 -> log_step args <> 0 ->
  Forall (fun b => length b = 5%nat) batches ->
  Forall (fun ib => (device_loop ib.1 ib.2).1 = 4) (enumerate batches) /\
  (exists total s' losses,
     train_pass args A batches s = (Returned total, s') /\
     length losses = length batches /\
     ((A | 5) ->
      calls s' = calls s ++ ModelTrain :: concat (map (batch_log true) losses) /\
      (losses, net s') = train_run true (net s) batches) /\
     (~ (A | 5) ->
      calls s' = calls s ++ ModelTrain :: concat (map (batch_log false) losses) /\
      (losses, net s') = train_run false (net s) batches)) /\
  (0 < A -> ((A | 5) <-> A = 1 \/ A = 5)).
Proof.
  intros HA Hlog Hbs. split; [|split].
  - rewrite <- (enumerate_snd batches) in Hbs.
    apply Forall_fmap in Hbs. eapply Forall_impl; [exact Hbs|].
    intros [i b] Hb. by apply device_loop_index.
  - destruct (train_pass_total args A batches s Hbs Hlog HA) as (total & s' & Hrun).
    destruct (train_pass_net _ _ _ _ _ _ Hrun) as (_ & Hnet & Hcalls).
    exists total, s', (train_run (bool_decide (5 mod A = 0)) (net s) batches).1.
    split; [done|]. split; [apply train_run_length|].
    unfold batch_calls in Hcalls. rewrite <- (Z.mod_divide 5 A HA).
    split; intros Hdiv.
    + rewrite Hcalls, Hnet. rewrite (bool_decide_eq_true_2 _ Hdiv).
      unfold batch_log. destruct (decide (5 mod A = 0)); [|done].
      split; [done|]. by destruct (train_run true (net s) batches).
    + rewrite Hcalls, Hnet. rewrite (bool_decide_eq_false_2 _ Hdiv).
      unfold batch_log. destruct (decide (5 mod A = 0)); [done|].
      split; [done|]. by destruct (train_run false (net s) batches).
  - apply divides_five.
Qed.

Lemma train_pass_steps_every_batch_or_never_witness :
  let args := Toy.args 12 1 1 in
  let batches : list (list (option (@Tensor Toy.collaborators))) :=
    Toy.train_batches in
  (5 <> 0 /\ log_step args <> 0 /\
   Forall (fun b => length b = 5%nat) batches) /\
  Forall (fun ib => (device_loop ib.1 ib.2).1 = 4) (enumerate batches) /\
  (exists total s' losses,
     train_pass args 5 batches Toy.start = (Returned total, s') /\
     length losses = length batches /\
     ((5 | 5) ->
      calls s' = calls Toy.start ++
                 ModelTrain :: concat (map (batch_log true) losses) /\
      (losses, net s') = train_run true (net Toy.start) batches) /\
     (~ (5 | 5) ->
      calls s' = calls Toy.start ++
                 ModelTrain :: concat (map (batch_log false) losses) /\
      (losses, net s') = train_run false (net Toy.start) batches)) /\
  (0 < 5 -> ((5 | 5) <-> 5 = 1 \/ 5 = 5)).
Proof.
  intros args batches.
  assert (H5 : 5 <> 0) by lia.
  assert (Hlog : log_step args <> 0) by (simpl; lia).
  assert (Hbs : Forall (fun b => length b = 5%nat) batches)
    by (repeat constructor).
  split; [done|].
  exact (train_pass_steps_every_batch_or_never args 5 batches Toy.start
           H5 Hlog Hbs).
Defined.

(** The net of that pass: with [grad_acc_steps = 5] each of the four
    batches has moved the weight by its gradient and zeroed it; with
    [grad_acc_steps = 2] the weight is the initial one and the four
    gradients have piled up. *)
Example train_pass_nets :
  net (@train_pass Toy.collaborators (Toy.args 12 1 1) 5
         Toy.train_batches Toy.start).2 = Toy.Net3 4 0 4 /\
  net (@train_pass Toy.collaborators (Toy.args 32 1 1) 2
         Toy.train_batches Toy.start).2 = Toy.Net3 0 4 4.
Proof. split; vm_compute; reflexivity. Qed.

(** C1 fails on the code: the accumulation condition of line 177 reads
    the [i] rebound by the device loop.  With [--batch_size 32]
    ([grad_acc_steps = 2]) an epoch of four batches takes no optimizer
    step where [floor(4 / 2) = 2] are claimed; with [--batch_size 12]
    ([grad_acc_steps = 5]) it takes four where [floor(4 / 5) = 0] are
    claimed. *)
Theorem optimizer_steps_not_floor :
  let B := Z.of_nat (length Toy.train_batches) in
  B = 4 /\
  (train (Toy.args 32 1 1) Toy.start).1 = Returned tt /\
  optimizer_steps (calls (train (Toy.args 32 1 1) Toy.start).2) = 0%nat /\
  B / 2 = 2 /\
  (train (Toy.args 12 1 1) Toy.start).1 = Returned tt /\
  optimizer_steps (calls (train (Toy.args 12 1 1) Toy.start).2) = 4%nat /\
  B / 5 = 0.
Proof. repeat split; vm_compute; reflexivity. Qed.

(** C10: for every [--batch_size] above 64, line 81 gives
    [grad_acc_steps = 0], and the first training batch is run up to
    [loss.backward()] and then aborts the run with [ZeroDivisionError] at
    the accumulation condition of line 177, no optimizer step taken. *)
Theorem batch_size_above_64_aborts `{Collaborators}
    (args : Args) (s : State) (b : list (option Tensor))
    (rest : list (list (option Tensor))) :
  64 < batch_size args ->
  -4 <= input_method args <= 3 -> -4 <= output_method args <= 3 ->
  log_step args <> 0 -> 1 <= num_epoch args ->
  train_loader 1 = b :: rest -> length b = 5%nat ->
  grad_acc_steps (batch_size args) s = (Returned 0, s) /\
  exists loss s',
    train args s = (Raised (Exn ZeroDivisionError 177), s') /\
    calls s' = calls s ++ [ModelTrain; Forward; Criterion loss; Backward] /\
    optimizer_steps (calls s') = optimizer_steps (calls s).
Proof.
  intros Hbs Hi Ho Hlog Hn Hloader Hb.
  assert (HA : grad_acc_steps (batch_size args) s = (Returned 0, s)).
  { unfold grad_acc_steps, py_floordiv. case_decide; [lia|].
    unfold ret. by rewrite Z.div_small by lia. }
  split; [exact HA|].
  destruct (train_step_zero args (PyInt 0) 0 b
              (set_calls (calls (init_locals s) ++ [ModelTrain])
                 (set_training true (init_locals s))) Hb Hlog)
    as (loss & s' & Hstep & Hcalls & _).
  exists loss, s'. split.
  - unfold train. apply bind_raised. right. exists tt, s.
    split; [by apply print_methods_in_range|].
    apply bind_raised. right. exists 0, s. split; [exact HA|].
    apply bind_raised. right. exists tt, (init_locals s). split; [reflexivity|].
    apply bind_raised. left.
    unfold run_epochs. rewrite seqZ_cons by lia. cbn [for_each].
    apply bind_raised. left. unfold epoch_body.
    apply bind_raised. left. rewrite Hloader. unfold train_pass.
    apply bind_raised. right. do 2 eexists. split; [reflexivity|].
    apply bind_raised. right. do 2 eexists. split; [reflexivity|].
    unfold enumerate. rewrite seqZ_cons by (cbn [length]; lia).
    cbn [zip zip_with for_each].
    apply bind_raised. left. exact Hstep.
  - assert (calls s' = calls s ++
                       [ModelTrain; Forward; Criterion loss; Backward]) as ->.
    { rewrite Hcalls. cbn. by rewrite <- app_assoc. }
    split; [done|]. rewrite optimizer_steps_app.
    change (optimizer_steps [ModelTrain; Forward; Criterion loss; Backward])
      with 0%nat. lia.
Qed.

Lemma batch_size_above_64_aborts_witness :
  let args := Toy.args 65 3 2 in
  (64 < batch_size args /\
   -4 <= input_method args <= 3 /\ -4 <= output_method args <= 3 /\
   log_step args <> 0 /\ 1 <= num_epoch args) /\
  grad_acc_steps (batch_size args) Toy.start = (Returned 0, Toy.start) /\
  exists loss s',
    train args Toy.start = (Raised (Exn ZeroDivisionError 177), s') /\
    calls s' = calls Toy.start ++
               [ModelTrain; Forward; Criterion loss; Backward] /\
    optimizer_steps (calls s') = optimizer_steps (calls Toy.start).
Proof.
  intros args.
  assert (H1 : 64 < batch_size args) by (simpl; lia).
  assert (H2 : -4 <= input_method args <= 3) by (simpl; lia).
  assert (H3 : -4 <= output_method args <= 3) by (simpl; lia).
  assert (H4 : log_step args <> 0) by (simpl; lia).
  assert (H5 : 1 <= num_epoch args) by (simpl; lia).
  split; [done|].
  exact (batch_size_above_64_aborts args Toy.start _ _ H1 H2 H3 H4 H5
           eq_refl eq_refl).
Defined.

(** C8: the training loss an epoch reports (printed, logged and appended
    to the history) is the sum of the losses of its TRAIN batches, divided
    by the number of training examples and multiplied by [--batch_size];
    the dev loss is the sum of the losses of its EVAL batches normalized
    the same way by the number of dev examples.  The losses are the
    values of [criterion(model(batch), labels)] on the batches the two
    loaders yield in the epoch, on the net as it is when each batch is
    reached ([train_run], [eval_run]); they are also the ones the log of
    calls records. *)
Theorem epoch_reports_normalized_losses `{Collaborators}
    (args : Args) (A epoch : Z) (s s' : State) :
  epoch_body args A tt epoch s = (Returned tt, s') ->
  exists tl s1 r s2 train_log eval_log,
    train_pass args A (train_loader epoch) s = (Returned tl, s1) /\
    calls s1 = calls s ++ ModelTrain :: train_log /\
    length (losses_of train_log) = length (train_loader epoch) /\
    eval_pass (dev_loader epoch) s1 = (Returned r, s2) /\
    calls s2 = calls s1 ++ ModelEval :: eval_log /\
    length (losses_of eval_log) = length (dev_loader epoch) /\
    (losses_of train_log, net s1) =
      train_run (bool_decide (5 mod A = 0)) (net s) (train_loader epoch) /\
    (losses_of eval_log, net s2) = eval_run (net s1) (dev_loader epoch) /\
    let train_loss :=
      float_mul (float_div (sum_losses (losses_of train_log))
                           (float_of_int train_dataset_len))
                (float_of_int (batch_size args)) in
    let dev_loss :=
      float_mul (float_div (sum_losses (losses_of eval_log))
                           (float_of_int dev_dataset_len))
                (float_of_int (batch_size args)) in
    file_logger s' =
      file_logger s ++ [(epoch, train_loss, dev_loss, (dataset_eval r.1).2)] /\
    list_train_loss s' = list_train_loss s ++ [train_loss] /\
    list_dev_loss s' = list_dev_loss s ++ [dev_loss].
Proof.
  intros (tl & s1 & r & s2 & Htrain & Heval & Hk & ->)%epoch_body_returned.
  destruct (train_pass_returned _ _ _ _ _ _ Htrain)
    as (_ & _ & _ & _ & _ & _ & _ & _ & (_ & Ht1 & Hd1 & _ & Hl1)).
  destruct (eval_pass_returned _ _ _ _ Heval)
    as (_ & _ & _ & _ & _ & _ & _ & (_ & Ht2 & Hd2 & _ & Hl2)).
  destruct (train_pass_net _ _ _ _ _ _ Htrain) as (Htl & Hn1 & Hc1).
  destruct (eval_pass_net _ _ _ _ Heval) as (Hdl & Hn2 & Hc2).
  exists tl, s1, r, s2. do 2 eexists.
  split; [exact Htrain|]. split; [exact Hc1|].
  rewrite losses_of_batch_calls. split; [apply train_run_length|].
  split; [exact Heval|]. split; [exact Hc2|].
  rewrite losses_of_eval_calls. split; [apply eval_run_length|].
  split.
  { rewrite Hn1. by destruct (train_run _ _ _). }
  split.
  { rewrite Hn2. by destruct (eval_run _ _). }
  cbn. rewrite Hl2, Hl1, Ht2, Ht1, Hd2, Hd1, Htl, Hdl.
  rewrite !total_value_sum. done.
Qed.

Section ReportRun.
Local Existing Instance Toy.collaborators.

Lemma epoch_reports_normalized_losses_witness :
  let args := Toy.args 64 1 1 in
  let s := Toy.start in
  let s' := (epoch_body args 1 tt 1 s).2 in
  epoch_body args 1 tt 1 s = (Returned tt, s') /\
  exists tl s1 r s2 train_log eval_log,
    train_pass args 1 (train_loader 1) s = (Returned tl, s1) /\
    calls s1 = calls s ++ ModelTrain :: train_log /\
    length (losses_of train_log) = length (train_loader 1) /\
    eval_pass (dev_loader 1) s1 = (Returned r, s2) /\
    calls s2 = calls s1 ++ ModelEval :: eval_log /\
    length (losses_of eval_log) = length (dev_loader 1) /\
    (losses_of train_log, net s1) =
      train_run (bool_decide (5 mod 1 = 0)) (net s) (train_loader 1) /\
    (losses_of eval_log, net s2) = eval_run (net s1) (dev_loader 1) /\
    let train_loss :=
      float_mul (float_div (sum_losses (losses_of train_log))
                           (float_of_int train_dataset_len))
                (float_of_int (batch_size args)) in
    let dev_loss :=
      float_mul (float_div (sum_losses (losses_of eval_log))
                           (float_of_int dev_dataset_len))
                (float_of_int (batch_size args)) in
    file_logger s' =
      file_logger s ++ [(1, train_loss, dev_loss, (dataset_eval r.1).2)] /\
    list_train_loss s' = list_train_loss s ++ [train_loss] /\
    list_dev_loss s' = list_dev_loss s ++ [dev_loss].
Proof.
  intros args s s'.
  assert (Hret : (epoch_body args 1 tt 1 s).1 = Returned tt)
    by (vm_compute; reflexivity).
  pose proof (outcome_returned (epoch_body args 1 tt 1 s) tt Hret) as Hrun.
  split; [exact Hrun|].
  exact (epoch_reports_normalized_losses args 1 1 s s' Hrun).
Defined.

(** The report of that epoch: four training batches of loss 1/2 over 8
    examples and dev batches of loss 1/2 and 1/4 over 3 examples, at
    batch size 64. *)
Example epoch_report_values :
  let s' := (epoch_body (Toy.args 64 1 1) 1 tt 1 Toy.start).2 in
  (train_run true (net Toy.start) (train_loader 1)).1 =
    [2 # 4; 2 # 4; 2 # 4; 2 # 4]%Q /\
  match file_logger s' with
  | [(1, train_loss, dev_loss, _)] =>
      (train_loss == 16)%Q /\ (dev_loss == 16)%Q
  | _ => False
  end.
Proof. split; [vm_compute; reflexivity|]. vm_compute. split; reflexivity. Qed.

End ReportRun.

Lemma run_epochs_f1_length `{Collaborators} args A n (s0 s : State) :
  0 <= n -> run_epochs args A 1 n s0 = (Returned tt, s) ->
  length (list_dev_f1 s) = (length (list_dev_f1 s0) + Z.to_nat n)%nat.
Proof.
  intros Hn. revert s. pattern n. apply natlike_ind; [| |exact Hn]; clear n Hn.
  - intros s. rewrite run_epochs_zero. intros [= <-]. simpl. lia.
  - intros n Hn IH s. unfold Z.succ.
    intros (s1 & Hrun & Hbody)%run_epochs_succ; [|done].
    apply epoch_body_files in Hbody as (_ & f & Hf & _).
    rewrite Hf, length_app, (IH s1 Hrun). simpl. lia.
Qed.

(** C4: after a run of [n] epochs with [--save_epoch k], the file of an
    epoch [1 .. n] is on disk, holding the model saved in that epoch, when
    the epoch is a multiple of [k], and is absent otherwise; the best-model
    file is present and holds the model saved in one of the epochs, pruned
    or not; no other file of the directory is touched. *)
Theorem retained_checkpoints `{Collaborators}
    (args : Args) (A n : Z) (s0 s : State) :
  0 <= n -> list_dev_f1 s0 = [] ->
  run_epochs args A 1 n s0 = (Returned tt, s) ->
  (forall e, 1 <= e <= n ->
     if decide (e mod save_epoch args = 0)
     then exists bytes, epoch_snapshot args A s0 e bytes /\
                        disk s !! ckpt_path args e = Some bytes
     else disk s !! ckpt_path args e = None) /\
  (1 <= n ->
   exists e bytes, 1 <= e <= n /\ epoch_snapshot args A s0 e bytes /\
                   disk s !! best_path args = Some bytes) /\
  (forall p, p <> best_path args ->
     (forall e, 1 <= e <= n -> p <> ckpt_path args e) ->
     disk s !! p = disk s0 !! p).
Proof.
  intros Hn Hempty. revert s. pattern n.
  apply natlike_ind; [| |exact Hn]; clear n Hn.
  - intros s. rewrite run_epochs_zero. intros [= <-].
    split; [intros e He; lia|]. split; [lia|done].
  - intros n Hn IH s. unfold Z.succ. intros Hrun.
    destruct (proj1 (run_epochs_succ args A 1 n s0 s Hn) Hrun)
      as (s1 & Hrun1 & Hbody).
    destruct (IH s1 Hrun1) as (IHc & IHb & IHo).
    pose proof (run_epochs_f1_length args A n s0 s1 Hn Hrun1) as Hlen.
    rewrite Hempty in Hlen. simpl in Hlen.
    apply epoch_body_files in Hbody as (_ & f & Hf & Hd).
    assert (Hsnap : epoch_snapshot args A s0 (1 + n)
                      (torch_save (model_training s) (net s))).
    { exists s. split; [|done]. by rewrite (Z.add_comm 1 n). }
    split; [|split].
    + intros e He. destruct (decide (e = 1 + n)) as [->|Hne].
      * rewrite Hd, disk_after_checkpoint_ckpt. case_decide; [|done].
        eexists. split; [exact Hsnap|done].
      * assert (1 <= e <= n) as He' by lia. specialize (IHc e He').
        rewrite Hd, disk_after_checkpoint_other;
          [exact IHc| |apply ckpt_path_ne_best].
        intros Heq%ckpt_path_inj. lia.
    + intros _. rewrite Hd, disk_after_checkpoint_best.
      destruct (is_new_best f (list_dev_f1 s1)) eqn:Hbest.
      * exists (1 + n). eexists. split; [lia|]. split; [exact Hsnap|done].
      * assert (1 <= n) as Hn1.
        { destruct (decide (1 <= n)); [done|].
          assert (n = 0) as -> by lia. simpl in Hlen.
          apply nil_length_inv in Hlen. rewrite Hlen in Hbest. done. }
        destruct (IHb Hn1) as (e & bytes & He & Hs & Hl).
        exists e, bytes. split; [lia|]. done.
    + intros p Hpb Hpc. rewrite Hd, disk_after_checkpoint_other; [|apply Hpc; lia|done].
      apply IHo; [done|]. intros e He. apply Hpc. lia.
Qed.

Lemma py_max_snoc {A} (gt : A -> A -> bool) (l : list A) (x : A) :
  py_max gt (l ++ [x]) =
  Some match py_max gt l with
       | None => x
       | Some m => if gt x m then x else m
       end.
Proof. destruct l as [|y l]; simpl; [done|]. by rewrite fold_left_app. Qed.

Lemma lookup_snoc_Some {A} (l : list A) (x g : A) (j : nat) :
  (l ++ [x]) !! j = Some g ->
  ((j < length l)%nat /\ l !! j = Some g) \/ (j = length l /\ g = x).
Proof.
  intros Hj. destruct (decide (j < length l)%nat) as [Hlt|Hge].
  - left. split; [done|]. by rewrite lookup_app_l in Hj.
  - right. rewrite lookup_app_r in Hj by lia.
    destruct (j - length l)%nat as [|k] eqn:Hk; simpl in Hj; [|done].
    injection Hj as <-. split; [lia|done].
Qed.

(** The invariant behind C3, with the running maximum of line 234. *)
Lemma best_model_invariant `{Collaborators}
    (args : Args) (A n : Z) (s0 s : State) :
  (forall a, float_gt a a = false) ->
  (forall a b c, float_gt a b = true -> float_gt b c = true ->
                 float_gt a c = true) ->
  (forall a b c, a ∈ list_dev_f1 s -> b ∈ list_dev_f1 s -> c ∈ list_dev_f1 s ->
                 float_gt a b = false -> float_gt b c = false ->
                 float_gt a c = false) ->
  0 <= n -> list_dev_f1 s0 = [] ->
  run_epochs args A 1 n s0 = (Returned tt, s) ->
  n = 0 \/
  exists e f bytes,
    1 <= e <= n /\ epoch_snapshot args A s0 e bytes /\
    disk s !! best_path args = Some bytes /\
    py_max float_gt (list_dev_f1 s) = Some f /\
    list_dev_f1 s !! Z.to_nat (e - 1) = Some f /\
    (forall j g, list_dev_f1 s !! j = Some g -> float_gt g f = false) /\
    (forall j g, (j < Z.to_nat (e - 1))%nat -> list_dev_f1 s !! j = Some g ->
                 float_gt f g = true).
Proof.
  intros Hirr Htrans Hcmp Hn Hempty. revert s Hcmp. pattern n.
  apply natlike_ind; [| |exact Hn]; clear n Hn.
  { intros; by left. }
  intros n Hn IH s Hcmp Hrun. right. unfold Z.succ in *.
  destruct (proj1 (run_epochs_succ args A 1 n s0 s Hn) Hrun)
    as (s1 & Hrun1 & Hbody).
  pose proof (run_epochs_f1_length args A n s0 s1 Hn Hrun1) as Hlen.
  rewrite Hempty in Hlen. simpl in Hlen.
  apply epoch_body_files in Hbody as (_ & f1 & Hf & Hd).
  assert (Hsnap : epoch_snapshot args A s0 (1 + n)
                    (torch_save (model_training s) (net s))).
  { exists s. split; [|done]. by rewrite (Z.add_comm 1 n). }
  rewrite Hf in Hcmp |- *. rewrite py_max_snoc.
  destruct (IH s1) as [-> | (e & f & bytes & He & Hs & Hb & Hmax & Hl & Hle & Hlt)];
    [intros a b c Ha Hb Hc; apply Hcmp; apply elem_of_app; by left
    | exact Hrun1 | |].
  - (* the first epoch *)
    apply nil_length_inv in Hlen. rewrite Hlen in *.
    exists 1, f1. eexists. split; [lia|]. split; [exact Hsnap|].
    split; [by rewrite Hd, disk_after_checkpoint_best|].
    split; [done|]. split; [done|]. split.
    + intros [|j] g [= <-]. apply Hirr.
    + intros j g Hj. simpl in Hj. lia.
  - (* a later epoch *)
    assert (Hfin : f ∈ list_dev_f1 s1) by (by eapply list_elem_of_lookup_2).
    rewrite Hmax. unfold is_new_best in Hd. rewrite Hmax in Hd.
    destruct (float_gt f1 f) eqn:Hgt.
    + exists (1 + n), f1. eexists. split; [lia|]. split; [exact Hsnap|].
      split; [by rewrite Hd, disk_after_checkpoint_best|].
      split; [done|]. split.
      { rewrite lookup_app_r by lia.
        replace (Z.to_nat (1 + n - 1) - length (list_dev_f1 s1))%nat
          with 0%nat by lia. done. }
      split.
      * intros j g [[_ Hg] | [_ ->]]%lookup_snoc_Some; [|apply Hirr].
        destruct (float_gt g f1) eqn:Hg1; [|done].
        rewrite <- (Hle j g Hg). symmetry. by eapply Htrans.
      * intros j g Hj [[_ Hg] | [? _]]%lookup_snoc_Some; [|lia].
        destruct (float_gt f1 g) eqn:Hg1; [done|].
        rewrite <- Hgt. symmetry.
        apply (Hcmp f1 g f); [| | |done|by eapply Hle].
        -- apply elem_of_app. right. constructor.
        -- apply elem_of_app. left. by eapply list_elem_of_lookup_2.
        -- apply elem_of_app. by left.
    + exists e, f, bytes. split; [lia|]. split; [exact Hs|].
      split; [by rewrite Hd, disk_after_checkpoint_best|].
      split; [done|]. split; [by apply lookup_app_l_Some|].
      split.
      * intros j g [[_ Hg] | [_ ->]]%lookup_snoc_Some; [by eapply Hle|done].
      * intros j g Hj [[_ Hg] | [? _]]%lookup_snoc_Some; [by eapply Hlt|lia].
Qed.

(** C3: after the checkpoint step of every epoch [n], the best-model file
    holds the model saved in the epoch [e] whose dev F1 no epoch so far
    exceeds and that every earlier epoch is strictly below: the earliest
    epoch of maximal dev F1 (the first epoch is always a new best, a tie
    never replaces the file).  The dev F1 values are assumed comparable,
    as floats other than NaN are. *)
Theorem best_model_is_first_maximum `{Collaborators}
    (args : Args) (A n : Z) (s0 s : State) :
  (forall a, float_gt a a = false) ->
  (forall a b c, float_gt a b = true -> float_gt b c = true ->
                 float_gt a c = true) ->
  (forall a b c, a ∈ list_dev_f1 s -> b ∈ list_dev_f1 s -> c ∈ list_dev_f1 s ->
                 float_gt a b = false -> float_gt b c = false ->
                 float_gt a c = false) ->
  1 <= n -> list_dev_f1 s0 = [] ->
  run_epochs args A 1 n s0 = (Returned tt, s) ->
  exists e f bytes,
    1 <= e <= n /\ epoch_snapshot args A s0 e bytes /\
    disk s !! best_path args = Some bytes /\
    length (list_dev_f1 s) = Z.to_nat n /\
    list_dev_f1 s !! Z.to_nat (e - 1) = Some f /\
    (forall j g, list_dev_f1 s !! j = Some g -> float_gt g f = false) /\
    (forall j g, (j < Z.to_nat (e - 1))%nat -> list_dev_f1 s !! j = Some g ->
                 float_gt f g = true).
Proof.
  intros Hirr Htrans Hcmp Hn Hempty Hrun.
  pose proof (run_epochs_f1_length args A n s0 s ltac:(lia) Hrun) as Hlen.
  rewrite Hempty in Hlen. simpl in Hlen.
  destruct (best_model_invariant args A n s0 s Hirr Htrans Hcmp
              ltac:(lia) Hempty Hrun)
    as [-> | (e & f & bytes & He & Hs & Hb & _ & Hl & Hle & Hlt)]; [lia|].
  exists e, f, bytes. done.
Qed.

Section CheckpointRuns.
Local Existing Instance Toy.collaborators.

Lemma toy_gt_irrefl (a : Q) : float_gt a a = false.
Proof.
  simpl. apply negb_false_iff, Qle_bool_iff, Qle_refl.
Qed.

Lemma toy_gt_false (a b : Q) : float_gt a b = false <-> (a <= b)%Q.
Proof. simpl. rewrite negb_false_iff. apply Qle_bool_iff. Qed.

Lemma toy_gt_true (a b : Q) : float_gt a b = true <-> (b < a)%Q.
Proof.
  simpl. rewrite negb_true_iff, <- not_true_iff_false, Qle_bool_iff.
  split; [apply Qnot_le_lt | apply Qlt_not_le].
Qed.

Lemma toy_gt_trans (a b c : Q) :
  float_gt a b = true -> float_gt b c = true -> float_gt a c = true.
Proof.
  rewrite !toy_gt_true. intros Hab Hbc. by eapply Qlt_trans.
Qed.

Lemma toy_gt_negtrans (a b c : Q) :
  float_gt a b = false -> float_gt b c = false -> float_gt a c = false.
Proof.
  rewrite !toy_gt_false. intros Hab Hbc. by eapply Qle_trans.
Qed.

(** Three epochs with dev F1 0, 1/3, 1/3 and [--save_epoch 3]. *)
Lemma best_model_is_first_maximum_witness :
  let args := Toy.args 64 3 3 in
  let s0 := Toy.start in
  let s := (run_epochs args 1 1 3 s0).2 in
  (1 <= 3 /\ list_dev_f1 s0 = [] /\
   run_epochs args 1 1 3 s0 = (Returned tt, s)) /\
  exists e f bytes,
    1 <= e <= 3 /\ epoch_snapshot args 1 s0 e bytes /\
    disk s !! best_path args = Some bytes /\
    length (list_dev_f1 s) = Z.to_nat 3 /\
    list_dev_f1 s !! Z.to_nat (e - 1) = Some f /\
    (forall j g, list_dev_f1 s !! j = Some g -> float_gt g f = false) /\
    (forall j g, (j < Z.to_nat (e - 1))%nat -> list_dev_f1 s !! j = Some g ->
                 float_gt f g = true).
Proof.
  intros args s0 s.
  assert (Hn : 1 <= 3) by lia.
  assert (Hempty : list_dev_f1 s0 = []) by reflexivity.
  assert (Hret : (run_epochs args 1 1 3 s0).1 = Returned tt)
    by (vm_compute; reflexivity).
  pose proof (outcome_returned (run_epochs args 1 1 3 s0) tt Hret) as Hrun.
  split; [exact (conj Hn (conj Hempty Hrun))|].
  exact (best_model_is_first_maximum args 1 3 s0 s
           toy_gt_irrefl toy_gt_trans
           (fun a b c _ _ _ => toy_gt_negtrans a b c) Hn Hempty Hrun).
Defined.

(** The tie of that run: epochs 2 and 3 both reach 1/3, the best-model file
    is the model of epoch 2, whose own file has been pruned. *)
Example tie_keeps_earlier_epoch :
  let args := Toy.args 64 3 3 in
  let s := (run_epochs args 1 1 3 Toy.start).2 in
  list_dev_f1 s = [0 # 3; 1 # 3; 1 # 3]%Q /\
  disk s !! best_path args =
    Some (torch_save false (net (run_epochs args 1 1 2 Toy.start).2)) /\
  disk s !! ckpt_path args 2 = None /\
  disk s !! best_path args <> disk s !! ckpt_path args 3.
Proof. repeat split; vm_compute; [reflexivity..|discriminate]. Qed.

Lemma retained_checkpoints_witness :
  let args := Toy.args 64 3 2 in
  let s0 := Toy.start in
  let s := (run_epochs args 1 1 3 s0).2 in
  (0 <= 3 /\ list_dev_f1 s0 = [] /\
   run_epochs args 1 1 3 s0 = (Returned tt, s)) /\
  (forall e, 1 <= e <= 3 ->
     if decide (e mod save_epoch args = 0)
     then exists bytes, epoch_snapshot args 1 s0 e bytes /\
                        disk s !! ckpt_path args e = Some bytes
     else disk s !! ckpt_path args e = None) /\
  (1 <= 3 ->
   exists e bytes, 1 <= e <= 3 /\ epoch_snapshot args 1 s0 e bytes /\
                   disk s !! best_path args = Some bytes) /\
  (forall p, p <> best_path args ->
     (forall e, 1 <= e <= 3 -> p <> ckpt_path args e) ->
     disk s !! p = disk s0 !! p).
Proof.
  intros args s0 s.
  assert (Hn : 0 <= 3) by lia.
  assert (Hempty : list_dev_f1 s0 = []) by reflexivity.
  assert (Hret : (run_epochs args 1 1 3 s0).1 = Returned tt)
    by (vm_compute; reflexivity).
  pose proof (outcome_returned (run_epochs args 1 1 3 s0) tt Hret) as Hrun.
  split; [exact (conj Hn (conj Hempty Hrun))|].
  exact (retained_checkpoints args 1 3 s0 s Hn Hempty Hrun).
Defined.

End CheckpointRuns.

(** ** Evaluation changes nothing *)

Section EvalPure.
Context `{Collaborators}.
Local Abbreviation Batch := (list (option Tensor)).

(** In inference mode the forward pass leaves the model as it is. *)
Hypothesis forward_eval_pure :
  forall n a b c d, (model_forward false n a b c d).2 = n.

Lemma batch_forward_pure n (b : Batch) : (batch_forward false n b).2 = n.
Proof.
  unfold batch_forward.
  destruct (device_loop 0 b).2 as [|x1 [|x2 [|x3 [|x4 [|x5 [|x6 b']]]]]];
    first [reflexivity | apply forward_eval_pure].
Qed.

Lemma only_observed_trans (s0 s1 s2 : State) :
  only_observed s0 s1 -> only_observed s1 s2 -> only_observed s0 s2.
Proof.
  intros (Hn1 & Ht1 & Hg1 & Hd1 & Ha1 & Hb1 & Hc1 & Hl1 & log1 & Hc & Hu1)
         (Hn2 & Ht2 & Hg2 & Hd2 & Ha2 & Hb2 & Hc2 & Hl2 & log2 & Hc' & Hu2).
  repeat (split; [congruence|]).
  exists (log1 ++ log2). split.
  - rewrite Hc', Hc. by rewrite <- app_assoc.
  - by apply Forall_app.
Qed.

Lemma eval_step_only_observed acc ib (s : State) :
  model_training s = false -> only_observed s (eval_step acc ib s).2.
Proof.
  intros Ht. destruct ib as [i b]. unfold eval_step. cbn [fst snd].
  rewrite device_loop_spec. cbn [fst snd].
  assert (Hrefl : only_observed s s).
  { repeat (split; [done|]). exists []. by rewrite app_nil_r. }
  destruct b as [|x1 [|x2 [|x3 [|x4 [|x5 [|x6 b]]]]]]; try exact Hrefl.
  cbn [fmap list_fmap]. unfold argmax_rows. unfold_py. cbn [fst snd].
  rewrite Ht.
  destruct (mapM argmax_row _); cbn; rewrite forward_eval_pure;
    (repeat (split; [done|])); eexists; (split; [by rewrite <- app_assoc|]);
    by repeat constructor.
Qed.

Lemma eval_step_same_model acc ib (s t : State) :
  same_model s t ->
  (eval_step acc ib s).1 = (eval_step acc ib t).1 /\
  same_model (eval_step acc ib s).2 (eval_step acc ib t).2.
Proof.
  intros [Ht Hn]. destruct ib as [i b]. unfold eval_step. cbn [fst snd].
  rewrite device_loop_spec. cbn [fst snd].
  destruct b as [|x1 [|x2 [|x3 [|x4 [|x5 [|x6 b]]]]]]; try done.
  cbn [fmap list_fmap]. unfold argmax_rows. unfold_py. cbn [fst snd].
  rewrite Ht, Hn. by destruct (mapM argmax_row _).
Qed.

Lemma eval_loop_only_observed ibs acc (s : State) :
  model_training s = false ->
  only_observed s (for_each eval_step ibs acc s).2.
Proof.
  intros Ht.
  apply (for_each_inv (fun s' => only_observed s s') eval_step).
  - intros a x s1 Hs1. eapply only_observed_trans; [exact Hs1|].
    apply eval_step_only_observed. apply Hs1.
  - repeat (split; [done|]). exists []. by rewrite app_nil_r.
Qed.

Lemma eval_pass_only_observed (batches : list Batch) (s : State) :
  net (eval_pass batches s).2 = net s /\
  model_training (eval_pass batches s).2 = false /\
  same_files s (eval_pass batches s).2 /\
  exists log, calls (eval_pass batches s).2 = calls s ++ ModelEval :: log /\
              Forall (fun c => is_update c = false) log.
Proof.
  unfold eval_pass, lookup_labels. unfold_py.
  set (s1 := set_calls (calls (set_training false s) ++ [ModelEval])
               (set_training false s)).
  pose proof (eval_loop_only_observed (enumerate batches) ([], PyInt 0) s1
                eq_refl)
    as (Hn & Ht & Hg & Hd & Ha & Hb & Hc & Hl & log & Hlog & Hu).
  destruct (for_each eval_step (enumerate batches) ([], PyInt 0) s1)
    as [[acc|e] s2]; cbn [fst snd] in *;
    [destruct (mapM _ _)|]; cbn [fst snd];
    (split; [exact Hn|]); (split; [exact Ht|]);
    (split; [by repeat split|]);
    exists log; (split; [|exact Hu]); rewrite Hlog; cbn;
    by rewrite <- app_assoc.
Qed.

Lemma eval_pass_same_model (batches : list Batch) (s t : State) :
  net s = net t -> (eval_pass batches s).1 = (eval_pass batches t).1.
Proof.
  intros Hn. unfold eval_pass, lookup_labels. unfold_py.
  set (s1 := set_calls (calls (set_training false s) ++ [ModelEval])
               (set_training false s)).
  set (t1 := set_calls (calls (set_training false t) ++ [ModelEval])
               (set_training false t)).
  assert (Hst : same_model s1 t1) by (by split).
  destruct (for_each_rel same_model eval_step (enumerate batches)
              eval_step_same_model ([], PyInt 0) s1 t1 Hst) as [Heq _].
  destruct (for_each eval_step (enumerate batches) ([], PyInt 0) s1)
    as [[acc|e] s2],
    (for_each eval_step (enumerate batches) ([], PyInt 0) t1)
    as [[acc'|e'] t2]; cbn [fst snd] in *; try discriminate.
  - injection Heq as <-. by destruct (mapM _ _).
  - by injection Heq as <-.
Qed.

Lemma mapM_app_Some {A B} (f : A -> option B) l1 l2 k1 k2 :
  mapM f l1 = Some k1 -> mapM f l2 = Some k2 ->
  mapM f (l1 ++ l2) = Some (k1 ++ k2).
Proof. rewrite !mapM_Some. apply Forall2_app. Qed.

(** The predictions and the dev loss the loop has gathered, from the net
    the pass started with. *)
Lemma eval_loop_predictions (ibs : list (Z * Batch)) acc (s : State) acc' s' :
  model_training s = false ->
  for_each eval_step ibs acc s = (Returned acc', s') ->
  exists ks,
    mapM argmax_row (concat (eval_logits (net s) <$> ibs.*2)) = Some ks /\
    acc'.1 = acc.1 ++ ks /\
    acc'.2 = fold_left py_add_loss (eval_loss (net s) <$> ibs.*2) acc.2.
Proof.
  revert acc s. induction ibs as [|[i b] ibs IH]; intros acc s Ht; simpl.
  - intros [= <- <-]. exists []. by rewrite app_nil_r.
  - intros (acc1 & s1 & Hstep & Hrest)%bind_returned.
    apply eval_step_returned in Hstep
      as (_ & ks1 & Hks1 & -> & Hn1 & _ & Ht1 & _).
    rewrite Ht in Hks1, Hn1, Ht1. rewrite batch_forward_pure in Hn1.
    apply IH in Hrest as (ks2 & Hks2 & Hp & Hl); [|done].
    rewrite Hn1 in Hks2, Hl. rewrite Ht in Hl.
    exists (ks1 ++ ks2). split; [by apply mapM_app_Some|].
    split; [rewrite Hp; cbn [fst]; by rewrite <- app_assoc|exact Hl].
Qed.

Lemma eval_pass_predictions (batches : list Batch) (s : State) r s' :
  eval_pass batches s = (Returned r, s') ->
  exists ks,
    mapM argmax_row (concat (eval_logits (net s) <$> batches)) = Some ks /\
    mapM (fun k => id2label !! k) ks = Some r.1 /\
    r.2 = fold_left py_add_loss (eval_loss (net s) <$> batches) (PyInt 0).
Proof.
  unfold eval_pass. intros (? & s1 & [= <-]%(f_equal snd) & H1)%bind_returned.
  apply bind_returned in H1 as (? & s2 & [= <-]%(f_equal snd) & H2).
  apply bind_returned in H2 as (acc & s3 & Hloop & H3).
  apply bind_returned in H3 as (ls & s4 & Hlab & [= <- <-]).
  unfold lookup_labels in Hlab.
  destruct (mapM _ acc.1) as [ls'|] eqn:Hls; [|discriminate].
  injection Hlab as <- <-.
  apply eval_loop_predictions in Hloop as (ks & Hks & Hp & Hl); [|done].
  rewrite enumerate_snd in Hks, Hl. simpl in Hp. subst ks.
  exists acc.1. done.
Qed.

End EvalPure.

(** C9: with a model whose forward pass in inference mode leaves it as it
    is, the EVAL pass logs no [backward], optimizer, scheduler or
    [zero_grad] call and changes neither the model nor the files, so a
    second pass over the same batches gives the same predictions and the
    same dev loss as the first; the outcome depends only on the model the
    pass starts from and on the batches. *)
Theorem eval_pass_twice_identical `{Collaborators}
    (batches : list (list (option Tensor))) (s : State) :
  (forall n a b c d, (model_forward false n a b c d).2 = n) ->
  let first := eval_pass batches s in
  let second := eval_pass batches first.2 in
  second.1 = first.1 /\
  net first.2 = net s /\
  same_files s first.2 /\
  (exists log, calls first.2 = calls s ++ ModelEval :: log /\
               Forall (fun c => is_update c = false) log) /\
  (forall t, net t = net s -> (eval_pass batches t).1 = first.1).
Proof.
  intros Hpure first second.
  destruct (eval_pass_only_observed Hpure batches s) as (Hn & _ & Hf & Hlog).
  split; [by apply eval_pass_same_model|].
  split; [exact Hn|]. split; [exact Hf|]. split; [exact Hlog|].
  intros t Ht. by apply eval_pass_same_model.
Qed.

Section EvalTwice.
Local Existing Instance Toy.collaborators.

Lemma eval_pass_twice_identical_witness :
  let batches := Toy.dev_batches in
  let s := Toy.start in
  let first := eval_pass batches s in
  let second := eval_pass batches first.2 in
  (forall n a b c d, (Toy.forward false n a b c d).2 = n) /\
  second.1 = first.1 /\
  net first.2 = net s /\
  same_files s first.2 /\
  (exists log, calls first.2 = calls s ++ ModelEval :: log /\
               Forall (fun c => is_update c = false) log) /\
  (forall t, net t = net s -> (eval_pass batches t).1 = first.1).
Proof.
  intros batches s first second.
  assert (Hpure : forall n a b c d, (Toy.forward false n a b c d).2 = n)
    by (intros; reflexivity).
  split; [exact Hpure|].
  exact (eval_pass_twice_identical batches s Hpure).
Defined.

End EvalTwice.

Lemma length_concat_logits `{Collaborators} (n : Net)
    (batches : list (list (option Tensor))) :
  Forall (fun b => length (eval_logits n b) = batch_examples b) batches ->
  length (concat (eval_logits n <$> batches)) =
  sum_list_with batch_examples batches.
Proof.
  induction 1 as [|b batches Hb _ IH]; [done|].
  cbn [fmap list_fmap concat sum_list_with].
  rewrite length_app, Hb. f_equal. exact IH.
Qed.

(** C6: with a model whose forward pass in inference mode leaves it as it
    is and returns one row of logits per example, over a loader whose
    batches hold the examples of the dev set, the EVAL pass returns one
    prediction per dev example, each the label that [id2label] gives for
    the argmax of the logits row of that example, in the order in which
    the batches and their rows were produced. *)
Theorem eval_predictions_follow_examples `{Collaborators}
    (batches : list (list (option Tensor))) (s s' : State)
    (predictions : list string) (dev_loss : PyNum Float) :
  (forall n a b c d, (model_forward false n a b c d).2 = n) ->
  Forall (fun b => length (eval_logits (net s) b) = batch_examples b)
         batches ->
  Z.of_nat (sum_list_with batch_examples batches) = dev_dataset_len ->
  eval_pass batches s = (Returned (predictions, dev_loss), s') ->
  Z.of_nat (length predictions) = dev_dataset_len /\
  Forall2 (fun p row =>
             exists k, argmax_row row = Some k /\ id2label !! k = Some p)
          predictions (concat (eval_logits (net s) <$> batches)).
Proof.
  intros Hpure Hrows Hcover Hrun.
  destruct (eval_pass_predictions Hpure batches s _ s' Hrun)
    as (ks & Hks & Hls & _).
  apply mapM_Some in Hks. apply mapM_Some in Hls. simpl in Hls.
  assert (HF : Forall2 (fun p row =>
                 exists k, argmax_row row = Some k /\ id2label !! k = Some p)
               predictions (concat (eval_logits (net s) <$> batches))).
  { clear -Hks Hls. revert predictions Hls.
    induction Hks as [|row k rows ks Hk _ IH]; intros predictions Hls.
    - inversion Hls. constructor.
    - inversion Hls as [|? p ? ps Hp Hps]; subst. constructor; [|by apply IH].
      by exists k. }
  split; [|exact HF].
  rewrite (Forall2_length _ _ _ HF), length_concat_logits by done. exact Hcover.
Qed.

Section EvalRun.
Local Existing Instance Toy.collaborators.

Lemma eval_predictions_follow_examples_witness :
  let batches := Toy.dev_batches in
  let s := Toy.start in
  let predictions := ["no_relation"; "per:title"; "no_relation"] in
  let dev_loss := PyFloat (12 # 16)%Q in
  let s' := (eval_pass batches s).2 in
  ((forall n a b c d, (model_forward false n a b c d).2 = n) /\
   Forall (fun b => length (eval_logits (net s) b) = batch_examples b)
          batches /\
   Z.of_nat (sum_list_with batch_examples batches) = dev_dataset_len /\
   eval_pass batches s = (Returned (predictions, dev_loss), s')) /\
  Z.of_nat (length predictions) = dev_dataset_len /\
  Forall2 (fun p row =>
             exists k, argmax_row row = Some k /\ id2label !! k = Some p)
          predictions (concat (eval_logits (net s) <$> batches)).
Proof.
  intros batches s predictions dev_loss s'.
  assert (Hpure : forall n a b c d, (model_forward false n a b c d).2 = n)
    by (intros; reflexivity).
  assert (Hrows : Forall (fun b => length (eval_logits (net s) b) =
                                   batch_examples b) batches)
    by (repeat constructor).
  assert (Hcover : Z.of_nat (sum_list_with batch_examples batches) =
                   dev_dataset_len) by reflexivity.
  assert (Hret : (eval_pass batches s).1 = Returned (predictions, dev_loss))
    by (vm_compute; reflexivity).
  pose proof (outcome_returned (eval_pass batches s) _ Hret) as Hrun.
  split; [exact (conj Hpure (conj Hrows (conj Hcover Hrun)))|].
  exact (eval_predictions_follow_examples batches s s' predictions dev_loss
           Hpure Hrows Hcover Hrun).
Defined.

End EvalRun.

(** * Further properties of [train] *)

(** X1: the device loop of lines 152-154 moves every tensor of the batch
    to the device, keeps absent fields absent and keeps the order and the
    number of fields; it leaves [i] at the last position, or untouched
    when the batch has no field. *)
Theorem device_loop_moves_every_field `{Collaborators}
    (i : Z) (b : list (option Tensor)) :
  (device_loop i b).1 =
    (if decide (length b = 0%nat) then i else Z.of_nat (length b) - 1) /\
  length (device_loop i b).2 = length b /\
  forall j : nat, (device_loop i b).2 !! j = (fmap to_device) <$> (b !! j).
Proof.
  rewrite device_loop_spec. cbn [fst snd].
  split; [done|]. split; [by rewrite length_fmap|].
  intros j. by rewrite list_lookup_fmap.
Qed.

(** X2: the checkpoint files of two different epochs have different
    paths, and no epoch's path is the path of the best-model file,
    whatever [--save_dir] and [--name] are. *)
Theorem checkpoint_paths_distinct (args : Args) (e e' : Z) :
  (ckpt_path args e = ckpt_path args e' <-> e = e') /\
  ckpt_path args e <> best_path args.
Proof.
  split; [split|].
  - apply ckpt_path_inj.
  - by intros ->.
  - apply ckpt_path_ne_best.
Qed.

(** X3: with [--save_epoch 0], once [torch.save] and the copy to the
    best-model file have gone through, the modulus of line 237 raises
    [ZeroDivisionError]: the epoch's model is then on disk under the
    epoch's path, and under the best-model path when it was a new best
    (the best-model file is otherwise left as it was). *)
Theorem zero_save_epoch_raises_after_saving `{Collaborators}
    (args : Args) (epoch : Z) (dev_f1 : Float) (s : State) :
  save_epoch args = 0 ->
  let bytes := torch_save (model_training s) (net s) in
  let r := checkpoint args epoch dev_f1 s in
  r.1 = Raised (Exn ZeroDivisionError 237) /\
  disk r.2 !! ckpt_path args epoch = Some bytes /\
  (is_new_best dev_f1 (list_dev_f1 s) = true ->
   disk r.2 !! best_path args = Some bytes) /\
  (is_new_best dev_f1 (list_dev_f1 s) = false ->
   disk r.2 !! best_path args = disk s !! best_path args).
Proof.
  intros Hz bytes r. subst r. rewrite checkpoint_eq.
  pose proof (ckpt_path_ne_best args epoch) as Hne.
  destruct (decide (save_epoch args = 0)) as [_|Hnz]; [|done].
  cbn [fst snd]. split; [done|].
  unfold disk_promoted. cbn [disk set_disk].
  destruct (is_new_best dev_f1 (list_dev_f1 s)).
  - split; [by rewrite lookup_insert_ne, lookup_insert_eq|].
    split; [by rewrite lookup_insert_eq|done].
  - split; [by rewrite lookup_insert_eq|].
    split; [done|]. intros _. by rewrite lookup_insert_ne.
Qed.

Lemma train_step_same_files `{Collaborators} args A tl ib (s : State) :
  same_files s (train_step args A tl ib s).2.
Proof.
  destruct ib as [i b]. unfold train_step. cbn [fst snd].
  rewrite device_loop_spec. cbn [fst snd].
  destruct b as [|x1 [|x2 [|x3 [|x4 [|x5 [|x6 b]]]]]];
    try (by repeat split).
  cbn [fmap list_fmap length]. unfold_py. cbn [fst snd].
  destruct (decide (log_step args = 0)); [by repeat split|].
  destruct (decide (A = 0)); [by repeat split|].
  destruct (decide (_ mod A = 0)), scheduler_step; by repeat split.
Qed.

Lemma eval_step_same_files `{Collaborators} acc ib (s : State) :
  same_files s (eval_step acc ib s).2.
Proof.
  destruct ib as [i b]. unfold eval_step. cbn [fst snd].
  rewrite device_loop_spec. cbn [fst snd].
  destruct b as [|x1 [|x2 [|x3 [|x4 [|x5 [|x6 b]]]]]];
    try (by repeat split).
  cbn [fmap list_fmap]. unfold argmax_rows. unfold_py. cbn [fst snd].
  destruct (mapM argmax_row _); by repeat split.
Qed.

(** X4: neither the TRAIN pass nor the EVAL pass writes, copies or removes
    a file, appends to the loss and F1 histories or logs a row, whether
    the pass returns or raises. *)
Theorem passes_leave_files_and_history `{Collaborators}
    (args : Args) (A : Z) (batches : list (list (option Tensor))) (s : State) :
  same_files s (train_pass args A batches s).2 /\
  same_files s (eval_pass batches s).2.
Proof.
  split.
  - unfold train_pass. unfold_py.
    set (s1 := set_calls _ _).
    assert (Hloop : same_files s1
              (for_each (train_step args A) (enumerate batches) (PyInt 0) s1).2).
    { apply (for_each_inv (fun s' => same_files s1 s')).
      - intros a x s2 Hs2. eapply same_files_trans; [exact Hs2|].
        apply train_step_same_files.
      - by repeat split. }
    destruct (for_each _ _ _ s1) as [[tl|e] s2]; exact Hloop.
  - unfold eval_pass, lookup_labels. unfold_py.
    set (s1 := set_calls _ _).
    assert (Hloop : same_files s1
              (for_each eval_step (enumerate batches) ([], PyInt 0) s1).2).
    { apply (for_each_inv (fun s' => same_files s1 s')).
      - intros a x s2 Hs2. eapply same_files_trans; [exact Hs2|].
        apply eval_step_same_files.
      - by repeat split. }
    destruct (for_each _ _ _ s1) as [[acc|e] s2]; cbn [fst snd] in *;
      [destruct (mapM _ _)|]; exact Hloop.
Qed.

(** X5: a batch that does not have exactly five fields stops either pass
    with [ValueError] at the unpacking (line 155, line 200) before the
    model is called: the state is the one the batch was met in. *)
Theorem malformed_batch_raises_before_forward `{Collaborators}
    (args : Args) (A i : Z) (tl : PyNum Float) (acc : list Z * PyNum Float)
    (b : list (option Tensor)) (s : State) :
  length b <> 5%nat ->
  train_step args A tl (i, b) s = (Raised (Exn ValueError 155), s) /\
  eval_step acc (i, b) s = (Raised (Exn ValueError 200), s).
Proof.
  intros Hb. unfold train_step, eval_step. cbn [fst snd].
  rewrite device_loop_spec. cbn [fst snd].
  destruct b as [|x1 [|x2 [|x3 [|x4 [|x5 [|x6 b]]]]]]; try done.
Qed.

(** X6: with [--log_step 0] a training batch of five fields is run through
    the model and the loss, and then the logging condition of line 169
    raises [ZeroDivisionError]: no gradient has been computed and the step
    counter has not moved. *)
Theorem zero_log_step_raises_before_backward `{Collaborators}
    (args : Args) (A i : Z) (tl : PyNum Float)
    (b : list (option Tensor)) (s : State) :
  log_step args = 0 -> length b = 5%nat ->
  exists loss s',
    train_step args A tl (i, b) s = (Raised (Exn ZeroDivisionError 169), s') /\
    calls s' = calls s ++ [Forward; Criterion loss] /\
    global_step s' = global_step s.
Proof.
  intros Hlog Hb. unfold train_step. cbn [fst snd].
  rewrite device_loop_spec. cbn [fst snd].
  destruct b as [|x1 [|x2 [|x3 [|x4 [|x5 [|x6 b]]]]]]; try discriminate.
  cbn [fmap list_fmap length]. unfold_py. cbn [fst snd].
  destruct (decide (log_step args = 0)); [|done].
  do 2 eexists. split; [reflexivity|]. cbn. by rewrite <- app_assoc.
Qed.

(** ** Counters and histories over a run *)

Lemma divides_five_mod (A : Z) : (A | 5) <-> 5 mod A = 0.
Proof.
  destruct (decide (A = 0)) as [->|HA].
  - rewrite Z.mod_0_r. split; [intros [k Hk]; lia|done].
  - symmetry. by apply Z.mod_divide.
Qed.

Lemma optimizer_steps_step_calls `{Collaborators} :
  optimizer_steps step_calls = 1%nat.
Proof. unfold step_calls. by destruct scheduler_step. Qed.

Lemma optimizer_steps_batch_calls `{Collaborators} (A : Z) (ls : list Float) :
  optimizer_steps (concat (map (batch_calls A) ls)) =
  if decide (5 mod A = 0) then length ls else 0%nat.
Proof.
  induction ls as [|l ls IH]; [by case_decide|]. cbn [map concat].
  rewrite optimizer_steps_app, IH. unfold batch_calls.
  rewrite optimizer_steps_app.
  change (optimizer_steps [Forward; Criterion l; Backward]) with 0%nat.
  case_decide; [by rewrite optimizer_steps_step_calls|done].
Qed.

Lemma optimizer_steps_eval_calls `{Collaborators} (ls : list Float) :
  optimizer_steps (concat (map eval_calls ls)) = 0%nat.
Proof.
  induction ls as [|l ls IH]; [done|]. cbn [map concat].
  by rewrite optimizer_steps_app, IH.
Qed.

Lemma batches_seen_succ `{Collaborators} (first n : Z) :
  0 <= n ->
  batches_seen first (n + 1) =
  batches_seen first n + Z.of_nat (length (train_loader (first + n))).
Proof.
  intros Hn. unfold batches_seen. rewrite seqZ_app by lia.
  rewrite (seqZ_cons _ 1), (seqZ_nil _ (Z.pred 1)) by lia.
  rewrite fmap_app, foldr_app. cbn [fmap list_fmap foldr].
  generalize (Z.of_nat (length (train_loader (first + n)))). intros x.
  induction (seqZ first n) as [|e es IH]; cbn [fmap list_fmap foldr]; [lia|].
  cbn [fmap list_fmap foldr] in IH. rewrite IH. lia.
Qed.

Lemma batches_seen_nonneg `{Collaborators} (first n : Z) :
  0 <= batches_seen first n.
Proof.
  unfold batches_seen.
  induction (seqZ first n) as [|e es IH]; cbn [fmap list_fmap foldr] in *; lia.
Qed.

(** What one completed epoch adds to the counters and to the histories. *)
Lemma epoch_body_counts `{Collaborators} args A epoch (s s' : State) :
  epoch_body args A tt epoch s = (Returned tt, s') ->
  global_step s' = global_step s + Z.of_nat (length (train_loader epoch)) /\
  optimizer_steps (calls s') =
    (optimizer_steps (calls s) +
     if decide (5 mod A = 0)%Z then length (train_loader epoch) else 0)%nat /\
  exists row,
    row_epoch row = epoch /\
    file_logger s' = file_logger s ++ [row] /\
    list_train_loss s' = list_train_loss s ++ [row_train_loss row] /\
    list_dev_loss s' = list_dev_loss s ++ [row_dev_loss row] /\
    list_dev_f1 s' = list_dev_f1 s ++ [row_dev_f1 row].
Proof.
  intros (tl & s1 & r & s2 & Htrain & Heval & Hk & ->)%epoch_body_returned.
  apply train_pass_returned in Htrain
    as (_ & _ & tls & Hlen1 & _ & Hc1 & _ & Hg1 & (_ & Ha1 & Hb1 & Hf1 & Hl1)).
  apply eval_pass_returned in Heval
    as (_ & dls & _ & _ & Hc2 & _ & Hg2 & (_ & Ha2 & Hb2 & Hf2 & Hl2)).
  cbn [global_step calls file_logger list_train_loss list_dev_loss
       list_dev_f1 append_history set_disk log_row].
  split; [lia|]. split.
  - rewrite Hc2, Hc1.
    rewrite !optimizer_steps_app.
    change (ModelTrain :: ?l) with ([ModelTrain] ++ l).
    change (ModelEval :: ?l) with ([ModelEval] ++ l).
    rewrite !optimizer_steps_app, optimizer_steps_batch_calls,
      optimizer_steps_eval_calls, Hlen1.
    change (optimizer_steps [ModelTrain]) with 0%nat.
    change (optimizer_steps [ModelEval]) with 0%nat. lia.
  - eexists (epoch, _, _, _). split; [done|].
    rewrite Hl2, Hl1, Ha2, Ha1, Hb2, Hb1, Hf2, Hf1. done.
Qed.

(** X7: after a completed run of [n] epochs the step counter has advanced
    by the number of batches the train loader yielded over those epochs. *)
Theorem global_step_counts_batches `{Collaborators}
    (args : Args) (A n : Z) (s0 s : State) :
  0 <= n -> run_epochs args A 1 n s0 = (Returned tt, s) ->
  global_step s = global_step s0 + batches_seen 1 n.
Proof.
  intros Hn. revert s. pattern n. apply natlike_ind; [| |exact Hn]; clear n Hn.
  - intros s. rewrite run_epochs_zero. intros [= <-]. unfold batches_seen.
    rewrite seqZ_nil by lia. simpl. lia.
  - intros n Hn IH s. unfold Z.succ.
    intros (s1 & Hrun & Hbody)%run_epochs_succ; [|done].
    apply epoch_body_counts in Hbody as (Hg & _).
    rewrite Hg, (IH s1 Hrun), batches_seen_succ by done. lia.
Qed.

Lemma run_net_succ `{Collaborators} update (first n : Z) (m : Net) :
  0 <= n ->
  run_net update first (n + 1) m =
  epoch_net update (run_net update first n m) (first + n).
Proof.
  intros Hn. unfold run_net. rewrite seqZ_app by lia.
  change (seqZ (first + n) 1) with [first + n].
  by rewrite fold_left_app.
Qed.

(** X8: over a completed run, when [grad_acc_steps] divides 5 the optimizer
    has stepped once per training batch, and when it does not the
    optimizer has not stepped at all.  This holds of the log of calls and
    of the net: the net after the run is the one [run_net] computes from
    the net before it, with the update of lines 178-181 after every
    training batch or after none. *)
Theorem optimizer_steps_over_run `{Collaborators}
    (args : Args) (A n : Z) (s0 s : State) :
  0 <= n -> run_epochs args A 1 n s0 = (Returned tt, s) ->
  ((A | 5) ->
   optimizer_steps (calls s) =
   (optimizer_steps (calls s0) + Z.to_nat (batches_seen 1 n))%nat /\
   net s = run_net true 1 n (net s0)) /\
  (~ (A | 5) ->
   optimizer_steps (calls s) = optimizer_steps (calls s0) /\
   net s = run_net false 1 n (net s0)).
Proof.
  intros Hn. revert s. pattern n. apply natlike_ind; [| |exact Hn]; clear n Hn.
  - intros s. rewrite run_epochs_zero. intros [= <-]. unfold batches_seen.
    rewrite seqZ_nil by lia. simpl. split; intros _; (split; [lia|done]).
  - intros n Hn IH s. unfold Z.succ.
    intros (s1 & Hrun & Hbody)%run_epochs_succ; [|done].
    pose proof (epoch_body_net _ _ _ _ _ Hbody) as Hnet.
    apply epoch_body_counts in Hbody as (_ & Ho & _).
    destruct (IH s1 Hrun) as [IHd IHn].
    pose proof (batches_seen_nonneg 1 n).
    rewrite Ho, Hnet, batches_seen_succ, !run_net_succ by done.
    rewrite divides_five_mod.
    split; intros Hd.
    + rewrite (bool_decide_eq_true_2 _ Hd).
      destruct (IHd ltac:(by apply divides_five_mod)) as [-> ->].
      case_decide; [|done]. split; [lia|done].
    + rewrite (bool_decide_eq_false_2 _ Hd).
      destruct (IHn ltac:(by rewrite divides_five_mod)) as [-> ->].
      case_decide; [done|]. split; [lia|done].
Qed.

(** X9: a completed run of [n] epochs logs one row per epoch, for the
    epochs 1 to [n] in order, and the three histories handed to the plot
    grow by the columns of exactly those rows. *)
Theorem one_row_per_epoch `{Collaborators}
    (args : Args) (A n : Z) (s0 s : State) :
  0 <= n -> run_epochs args A 1 n s0 = (Returned tt, s) ->
  exists rows,
    file_logger s = file_logger s0 ++ rows /\
    row_epoch <$> rows = seqZ 1 n /\
    list_train_loss s = list_train_loss s0 ++ (row_train_loss <$> rows) /\
    list_dev_loss s = list_dev_loss s0 ++ (row_dev_loss <$> rows) /\
    list_dev_f1 s = list_dev_f1 s0 ++ (row_dev_f1 <$> rows).
Proof.
  intros Hn. revert s. pattern n. apply natlike_ind; [| |exact Hn]; clear n Hn.
  - intros s. rewrite run_epochs_zero. intros [= <-]. exists [].
    rewrite seqZ_nil by lia. simpl. by rewrite !app_nil_r.
  - intros n Hn IH s. unfold Z.succ.
    intros (s1 & Hrun & Hbody)%run_epochs_succ; [|done].
    apply epoch_body_counts in Hbody
      as (_ & _ & row & He & Hl & Ht & Hd & Hf).
    destruct (IH s1 Hrun) as (rows & IHl & IHe & IHt & IHd & IHf).
    exists (rows ++ [row]). rewrite !fmap_app. cbn [fmap list_fmap].
    split; [by rewrite Hl, IHl, <- app_assoc|].
    split.
    { rewrite seqZ_app by lia. change (seqZ (1 + n) 1) with [1 + n].
      f_equal; [exact IHe|by rewrite He]. }
    split; [by rewrite Ht, IHt, <- app_assoc|].
    split; [by rewrite Hd, IHd, <- app_assoc|].
    by rewrite Hf, IHf, <- app_assoc.
Qed.

(** ** When [train] returns, and when it cannot *)

Lemma run_epochs_each_epoch `{Collaborators} args A n (s0 s : State) :
  0 <= n -> run_epochs args A 1 n s0 = (Returned tt, s) ->
  forall e, 1 <= e <= n ->
    exists s1 s2, epoch_body args A tt e s1 = (Returned tt, s2).
Proof.
  intros Hn. revert s. pattern n. apply natlike_ind; [| |exact Hn]; clear n Hn.
  - intros s _ e He. lia.
  - intros n Hn IH s. unfold Z.succ.
    intros (s1 & Hrun & Hbody)%run_epochs_succ; [|done].
    intros e He. destruct (decide (e = 1 + n)) as [->|Hne].
    + by exists s1, s.
    + apply (IH s1 Hrun). lia.
Qed.

(** X11: [train] returns normally only for a configuration whose method
    selectors are in the range of the name tables, whose batch size is
    not 0, that asks for at least one epoch and has a non-zero
    [--save_epoch], over loaders whose batches all have five fields; and
    if an epoch has a training batch, only with a non-zero [--log_step]
    and a batch size of at most 64. *)
Theorem train_returns_only_if `{Collaborators} (args : Args) (s s' : State) :
  train args s = (Returned tt, s') ->
  -4 <= input_method args <= 3 /\ -4 <= output_method args <= 3 /\
  batch_size args <> 0 /\ 1 <= num_epoch args /\ save_epoch args <> 0 /\
  forall e, 1 <= e <= num_epoch args ->
    Forall (fun b => length b = 5%nat) (train_loader e) /\
    Forall (fun b => length b = 5%nat) (dev_loader e) /\
    (train_loader e <> [] -> log_step args <> 0 /\ batch_size args <= 64).
Proof.
  unfold train. intros ([] & s1 & Hprint & H1)%bind_returned.
  apply bind_returned in H1 as (A & s2 & HA & H2).
  apply bind_returned in H2 as ([] & s3 & _ & H3).
  apply bind_returned in H3 as ([] & s4 & Hrun & Hend).
  destruct (decide (num_epoch args < 1)) as [|Hn]; [discriminate|].
  assert (Hrange : -4 <= input_method args <= 3 /\
                   -4 <= output_method args <= 3).
  { destruct (decide (-4 <= input_method args <= 3 /\
                      -4 <= output_method args <= 3)) as [|Hout]; [done|].
    destruct (print_methods_out_of_range args s Hout) as (line & _ & Hr).
    rewrite Hr in Hprint. discriminate. }
  unfold grad_acc_steps, py_floordiv in HA.
  destruct (decide (batch_size args = 0)) as [|Hbs]; [discriminate|].
  injection HA as <- <-.
  assert (Hn0 : 0 <= num_epoch args) by lia.
  pose proof (run_epochs_each_epoch args _ _ _ _ Hn0 Hrun) as Hepochs.
  destruct Hrange as [Hi Ho].
  split; [done|]. split; [done|]. split; [done|]. split; [lia|]. split.
  - destruct (Hepochs 1 ltac:(lia)) as (t1 & t2 & Hbody).
    by apply epoch_body_files in Hbody as [Hk _].
  - intros e He. destruct (Hepochs e He) as (t1 & t2 & Hbody).
    apply epoch_body_returned in Hbody
      as (tl & u1 & r & u2 & Htrain & Heval & _).
    apply train_pass_returned in Htrain as (Hbt & Hne & _).
    apply eval_pass_returned in Heval as (Hbd & _).
    split; [done|]. split; [done|].
    intros Hb. destruct (Hne Hb) as [Hlog HA]. split; [done|].
    destruct (decide (batch_size args <= 64)); [done|].
    exfalso. apply HA. apply Z.div_small. lia.
Qed.

(** X12: with [--batch_size 0] and method selectors in range, [train]
    raises [ZeroDivisionError] at line 81, before the model, the loaders
    and the output directory are touched. *)
Theorem zero_batch_size_raises_at_start `{Collaborators}
    (args : Args) (s : State) :
  -4 <= input_method args <= 3 -> -4 <= output_method args <= 3 ->
  batch_size args = 0 ->
  train args s = (Raised (Exn ZeroDivisionError 81), s).
Proof.
  intros Hi Ho Hbs. unfold train. apply bind_raised. right. exists tt, s.
  split; [by apply print_methods_in_range|].
  apply bind_raised. left. unfold grad_acc_steps, py_floordiv.
  by destruct (decide (batch_size args = 0)).
Qed.

(** X13: with [--num_epoch] below 1 and an otherwise valid start-up, the
    body of the epoch loop never runs (no TRAIN pass, no EVAL pass, no
    checkpoint step) and the final message of line 248 raises [NameError]
    on the unbound [epoch]. *)
Theorem no_epoch_raises_name_error `{Collaborators} (args : Args) (s : State) :
  -4 <= input_method args <= 3 -> -4 <= output_method args <= 3 ->
  batch_size args <> 0 -> num_epoch args < 1 ->
  train args s = (Raised (Exn NameError 248), init_locals s).
Proof.
  intros Hi Ho Hbs Hn.
  unfold train. apply bind_raised. right. exists tt, s.
  split; [by apply print_methods_in_range|].
  apply bind_raised. right. exists (64 / batch_size args), s. split.
  { unfold grad_acc_steps, py_floordiv.
    by destruct (decide (batch_size args = 0)). }
  apply bind_raised. right. exists tt, (init_locals s). split; [done|].
  apply bind_raised. right. exists tt, (init_locals s). split.
  { unfold run_epochs. by rewrite seqZ_nil by lia. }
  by destruct (decide (num_epoch args < 1)).
Qed.

(** ** The label table and the best-model test *)

Lemma py_dict_list_to_map {V} (pairs : list (Z * V)) :
  py_dict pairs = list_to_map (reverse pairs).
Proof.
  unfold py_dict. induction pairs as [|[k v] pairs IH] using rev_ind; [done|].
  rewrite fold_left_app, reverse_snoc, list_to_map_cons, <- IH. done.
Qed.

(** X14: [id2label] sends an id only to a name that [LABEL_TO_ID] gives
    that id, and when no two names share an id it inverts the table: a
    name has the id [v] exactly when [id2label[v]] is that name. *)
Theorem id2label_inverts_label_to_id `{Collaborators} (label : string) (v : Z) :
  (id2label !! v = Some label -> (label, v) ∈ LABEL_TO_ID) /\
  (NoDup (LABEL_TO_ID.*2) ->
   ((label, v) ∈ LABEL_TO_ID <-> id2label !! v = Some label)).
Proof.
  unfold id2label. rewrite py_dict_list_to_map.
  set (swap := fun kv : string * Z => (kv.2, kv.1)).
  assert (Hmem : (v, label) ∈ reverse (map swap LABEL_TO_ID) <->
                 (label, v) ∈ LABEL_TO_ID).
  { rewrite elem_of_reverse. change (map swap LABEL_TO_ID)
      with (swap <$> LABEL_TO_ID). rewrite list_elem_of_fmap. split.
    - intros ([l' v'] & [= -> ->] & Hin). exact Hin.
    - intros Hin. by exists (label, v). }
  split.
  - intros Hl%elem_of_list_to_map_2. by apply Hmem.
  - intros Hnd. rewrite <- Hmem. apply elem_of_list_to_map.
    rewrite fmap_reverse, reverse_Permutation.
    change (map swap LABEL_TO_ID) with (swap <$> LABEL_TO_ID).
    rewrite <- list_fmap_compose.
    erewrite list_fmap_ext; [exact Hnd|]. by intros [].
Qed.

Lemma py_max_spec {A} (gt : A -> A -> bool) (l : list A) :
  (forall a, gt a a = false) ->
  (forall a b c, gt a b = true -> gt b c = true -> gt a c = true) ->
  l <> [] ->
  exists m, py_max gt l = Some m /\ m ∈ l /\
            forall g, g ∈ l -> gt g m = false.
Proof.
  intros Hirr Htrans. induction l as [|x l IH] using rev_ind; [done|].
  intros _. rewrite py_max_snoc. destruct l as [|y l].
  - exists x. split; [done|]. split; [by left|].
    intros g ->%list_elem_of_singleton. apply Hirr.
  - destruct IH as (m & -> & Hm & Hle); [done|].
    destruct (gt x m) eqn:Hx.
    + exists x. split; [done|]. split; [apply elem_of_app; right; by left|].
      intros g [Hg | ->%list_elem_of_singleton]%elem_of_app; [|apply Hirr].
      destruct (gt g x) eqn:Hgx; [|done].
      rewrite <- (Hle g Hg). symmetry. by eapply Htrans.
    + exists m. split; [done|]. split; [apply elem_of_app; by left|].
      intros g [Hg | ->%list_elem_of_singleton]%elem_of_app; [by apply Hle|done].
Qed.

(** X15: for comparable dev F1 values the test of line 234 holds exactly
    when the new value is strictly greater than every value of the
    earlier epochs (always, when there is none). *)
Theorem new_best_iff_above_all_seen `{Collaborators}
    (dev_f1 : Float) (seen : list Float) :
  (forall a, float_gt a a = false) ->
  (forall a b c, float_gt a b = true -> float_gt b c = true ->
                 float_gt a c = true) ->
  (forall g m, g ∈ seen -> m ∈ seen ->
               float_gt dev_f1 g = false -> float_gt g m = false ->
               float_gt dev_f1 m = false) ->
  is_new_best dev_f1 seen = true <->
  forall g, g ∈ seen -> float_gt dev_f1 g = true.
Proof.
  intros Hirr Htrans Hcmp. unfold is_new_best.
  destruct (decide (seen = [])) as [->|Hne].
  { simpl. split; [intros _ g Hg; by apply elem_of_nil in Hg|done]. }
  destruct (py_max_spec float_gt seen Hirr Htrans Hne) as (m & -> & Hm & Hle).
  split.
  - intros Hgt g Hg. destruct (float_gt dev_f1 g) eqn:Hfg; [done|].
    rewrite <- Hgt. symmetry. by apply (Hcmp g m Hg Hm Hfg), Hle.
  - intros Hall. by apply Hall.
Qed.

(** ** A run that completes *)

Section Completes.
Context `{Collaborators}.
Local Abbreviation Batch := (list (option Tensor)).

(** Every row of logits has an argmax and [id2label] knows it. *)
Hypothesis rows_have_labels :
  forall n a b c d,
    Forall (fun row => exists k, argmax_row row = Some k /\
                                 is_Some (id2label !! k))
           (model_forward false n a b c d).1.

Lemma mapM_Forall {A B} (f : A -> option B) (P : B -> Prop) (l : list A) :
  Forall (fun x => exists y, f x = Some y /\ P y) l ->
  exists ys, mapM f l = Some ys /\ Forall P ys.
Proof.
  induction 1 as [|x l (y & Hy & HP) _ (ys & Hys & HPs)].
  - by exists [].
  - exists (y :: ys). split; [|by constructor].
    apply mapM_Some. constructor; [done|]. by apply mapM_Some.
Qed.

Lemma eval_step_total acc i (b : Batch) (s : State) :
  length b = 5%nat -> model_training s = false ->
  exists preds loss s',
    eval_step acc (i, b) s =
      (Returned (acc.1 ++ preds, py_add_loss acc.2 loss), s') /\
    Forall (fun k => is_Some (id2label !! k)) preds /\
    model_training s' = false.
Proof.
  intros Hb Ht. unfold eval_step. cbn [fst snd].
  rewrite device_loop_spec. cbn [fst snd].
  destruct b as [|x1 [|x2 [|x3 [|x4 [|x5 [|x6 b]]]]]]; try discriminate.
  cbn [fmap list_fmap]. unfold argmax_rows. unfold_py. cbn [fst snd].
  rewrite Ht.
  destruct (mapM_Forall argmax_row _ _
              (rows_have_labels (net s) (to_device <$> x2) (to_device <$> x3)
                 (to_device <$> x4) (to_device <$> x5)))
    as (preds & -> & Hpreds).
  by do 3 eexists.
Qed.

Lemma eval_loop_total (ibs : list (Z * Batch)) acc (s : State) :
  Forall (fun b : Batch => length b = 5%nat) ibs.*2 ->
  model_training s = false ->
  Forall (fun k => is_Some (id2label !! k)) acc.1 ->
  exists acc' s',
    for_each eval_step ibs acc s = (Returned acc', s') /\
    Forall (fun k => is_Some (id2label !! k)) acc'.1.
Proof.
  revert acc s. induction ibs as [|[i b] ibs IH]; intros acc s Hbs Ht Hacc.
  - by exists acc, s.
  - apply Forall_cons in Hbs as [Hb Hbs].
    destruct (eval_step_total acc i b s Hb Ht)
      as (preds & loss & s1 & Hstep & Hpreds & Ht1).
    destruct (IH (acc.1 ++ preds, py_add_loss acc.2 loss) s1 Hbs Ht1)
      as (acc' & s' & Hrest & Hacc'); [by apply Forall_app|].
    exists acc', s'. split; [|done]. cbn [for_each].
    apply bind_returned. eauto.
Qed.

Lemma eval_pass_total (batches : list Batch) (s : State) :
  Forall (fun b : Batch => length b = 5%nat) batches ->
  exists r s', eval_pass batches s = (Returned r, s').
Proof.
  intros Hbs. rewrite <- (enumerate_snd batches) in Hbs.
  destruct (eval_loop_total (enumerate batches) ([], PyInt 0)
              (set_calls (calls (set_training false s) ++ [ModelEval])
                 (set_training false s)))
    as (acc & s' & Hloop & Hacc); [exact Hbs|reflexivity|constructor|].
  apply mapM_is_Some in Hacc as [labels Hlabels].
  exists (labels, acc.2), s'. unfold eval_pass.
  apply bind_returned. do 2 eexists. split; [reflexivity|].
  apply bind_returned. do 2 eexists. split; [reflexivity|].
  apply bind_returned. exists acc, s'. split; [exact Hloop|].
  apply bind_returned. exists labels, s'. split; [|done].
  unfold lookup_labels. by rewrite Hlabels.
Qed.

Lemma normalized_loss_total (losses : list Float) (n bs line : Z) (s : State) :
  losses <> [] \/ n <> 0 ->
  exists x, normalized_loss (fold_left py_add_loss losses (PyInt 0))
                            n bs line s = (Returned x, s).
Proof.
  intros Hne. unfold normalized_loss.
  destruct (fold_left py_add_loss losses (PyInt 0)) as [z|x] eqn:Hfold.
  - destruct (decide (n = 0)) as [->|]; [|by eexists].
    destruct Hne as [Hne|]; [|done]. exfalso.
    destruct losses as [|l ls]; [done|]. simpl in Hfold.
    clear -Hfold. revert Hfold.
    generalize (float_add (float_of_int 0) l). intros y.
    revert y. induction ls as [|l' ls IH]; intros y; simpl; [done|].
    apply IH.
  - by eexists.
Qed.

Lemma epoch_body_total args A epoch (s : State) :
  log_step args <> 0 -> A <> 0 -> save_epoch args <> 0 ->
  Forall (fun b : Batch => length b = 5%nat) (train_loader epoch) ->
  Forall (fun b : Batch => length b = 5%nat) (dev_loader epoch) ->
  train_loader epoch <> [] \/ train_dataset_len <> 0 ->
  dev_loader epoch <> [] \/ dev_dataset_len <> 0 ->
  exists s', epoch_body args A tt epoch s = (Returned tt, s').
Proof.
  intros Hlog HA Hk Hbt Hbd Hnt Hnd.
  destruct (train_pass_total args A _ s Hbt Hlog HA) as (tl & s1 & Htrain).
  destruct (train_pass_returned _ _ _ _ _ _ Htrain)
    as (_ & _ & tls & Hlen1 & -> & _).
  destruct (eval_pass_total _ s1 Hbd) as (r & s2 & Heval).
  destruct (eval_pass_returned _ _ _ _ Heval) as (_ & dls & Hlen2 & Hr & _).
  destruct (normalized_loss_total tls train_dataset_len (batch_size args)
              223 s2) as (x & Hx).
  { destruct Hnt as [Hnt|]; [left|by right]. intros ->. by destruct (train_loader epoch). }
  destruct (normalized_loss_total dls dev_dataset_len (batch_size args)
              224 s2) as (y & Hy).
  { destruct Hnd as [Hnd|]; [left|by right]. intros ->. by destruct (dev_loader epoch). }
  rewrite <- Hr in Hy.
  eexists. unfold epoch_body.
  apply bind_returned. do 2 eexists. split; [exact Htrain|].
  apply bind_returned. do 2 eexists. split; [exact Heval|].
  apply bind_returned. do 2 eexists. split; [exact Hx|].
  apply bind_returned. do 2 eexists. split; [exact Hy|].
  apply bind_returned. do 2 eexists. split; [reflexivity|].
  apply bind_returned. exists tt. eexists. split; [|reflexivity].
  rewrite checkpoint_eq. by destruct (decide (save_epoch args = 0)).
Qed.

Lemma run_epochs_total args A n (s : State) :
  0 <= n -> log_step args <> 0 -> A <> 0 -> save_epoch args <> 0 ->
  (forall e, 1 <= e <= n ->
     Forall (fun b : Batch => length b = 5%nat) (train_loader e) /\
     Forall (fun b : Batch => length b = 5%nat) (dev_loader e) /\
     (train_loader e <> [] \/ train_dataset_len <> 0) /\
     (dev_loader e <> [] \/ dev_dataset_len <> 0)) ->
  exists s', run_epochs args A 1 n s = (Returned tt, s').
Proof.
  intros Hn Hlog HA Hk. pattern n. apply natlike_ind; [| |exact Hn]; clear n Hn.
  - intros _. by exists s.
  - intros n Hn IH Hall. unfold Z.succ.
    destruct IH as (s1 & Hrun); [intros e He; apply Hall; lia|].
    destruct (Hall (1 + n) ltac:(lia)) as (Hbt & Hbd & Hnt & Hnd).
    destruct (epoch_body_total args A (1 + n) s1 Hlog HA Hk Hbt Hbd Hnt Hnd)
      as (s' & Hbody).
    exists s'. apply run_epochs_succ; [done|]. by exists s1.
Qed.

End Completes.

(** X16: none of the exceptions of train.py itself stops the run, and
    [train] runs all its epochs and returns, when the method selectors are
    in range, the batch size is between 1 and 64, [--log_step] and
    [--save_epoch] are non-zero, at least one epoch is asked for, every
    batch of both loaders has five fields, no loss is divided as an
    integer by an empty dataset, and every row of logits has an argmax
    that [id2label] knows.  The collaborators and the file operations are
    taken to succeed. *)
Theorem train_returns_if `{Collaborators} (args : Args) (s : State) :
  -4 <= input_method args <= 3 -> -4 <= output_method args <= 3 ->
  0 < batch_size args <= 64 ->
  log_step args <> 0 -> save_epoch args <> 0 -> 1 <= num_epoch args ->
  (forall e, 1 <= e <= num_epoch args ->
     Forall (fun b => length b = 5%nat) (train_loader e) /\
     Forall (fun b => length b = 5%nat) (dev_loader e) /\
     (train_loader e <> [] \/ train_dataset_len <> 0) /\
     (dev_loader e <> [] \/ dev_dataset_len <> 0)) ->
  (forall n a b c d,
     Forall (fun row => exists k, argmax_row row = Some k /\
                                  is_Some (id2label !! k))
            (model_forward false n a b c d).1) ->
  exists s', train args s = (Returned tt, s').
Proof.
  intros Hi Ho [Hpos Hle] Hlog Hk Hn Hall Hrows.
  assert (Hbs : batch_size args <> 0) by lia.
  assert (HA : 64 / batch_size args <> 0).
  { pose proof (Z.div_mod 64 (batch_size args) Hbs) as Hdm.
    pose proof (Z.mod_pos_bound 64 (batch_size args) Hpos). nia. }
  destruct (run_epochs_total Hrows args (64 / batch_size args)
              (num_epoch args) (init_locals s) ltac:(lia) Hlog HA Hk Hall)
    as (s' & Hrun).
  exists s'. unfold train.
  apply bind_returned. exists tt, s.
  split; [by apply print_methods_in_range|].
  apply bind_returned. exists (64 / batch_size args), s. split.
  { unfold grad_acc_steps, py_floordiv.
    by destruct (decide (batch_size args = 0)). }
  apply bind_returned. exists tt, (init_locals s). split; [done|].
  apply bind_returned. exists tt, s'. split; [exact Hrun|].
  destruct (decide (num_epoch args < 1)); [lia|done].
Qed.

(** ** The further properties on concrete runs *)

Section FurtherRuns.
Local Existing Instance Toy.collaborators.

Lemma malformed_batch_raises_before_forward_witness :
  let args := Toy.args 64 1 1 in
  let b : list (option Tensor) := [Some (false, [1]); None] in
  length b <> 5%nat /\
  train_step args 1 (PyInt 0) (0, b) Toy.start =
    (Raised (Exn ValueError 155), Toy.start) /\
  eval_step ([], PyInt 0) (0, b) Toy.start =
    (Raised (Exn ValueError 200), Toy.start).
Proof.
  intros args b.
  assert (Hb : length b <> 5%nat) by (simpl; lia).
  split; [exact Hb|].
  exact (malformed_batch_raises_before_forward args 1 0 (PyInt 0)
           ([], PyInt 0) b Toy.start Hb).
Defined.

Lemma zero_log_step_raises_before_backward_witness :
  let args := {| num_epoch := 1; batch_size := 64; input_method := 3;
                 output_method := 3; log_step := 0; save_epoch := 1;
                 save_dir := "./saved_models"; name := "test" |} in
  let b := Toy.batch_of [0; 1] [0; 3] in
  (log_step args = 0 /\ length b = 5%nat) /\
  exists loss s',
    train_step args 1 (PyInt 0) (0, b) Toy.start =
      (Raised (Exn ZeroDivisionError 169), s') /\
    calls s' = calls Toy.start ++ [Forward; Criterion loss] /\
    global_step s' = global_step Toy.start.
Proof.
  intros args b. split; [by split|].
  exact (zero_log_step_raises_before_backward args 1 0 (PyInt 0) b Toy.start
           eq_refl eq_refl).
Defined.

Lemma global_step_counts_batches_witness :
  let args := Toy.args 64 3 2 in
  let s := (run_epochs args 1 1 3 Toy.start).2 in
  (0 <= 3 /\ run_epochs args 1 1 3 Toy.start = (Returned tt, s)) /\
  global_step s = global_step Toy.start + batches_seen 1 3.
Proof.
  intros args s.
  assert (Hn : 0 <= 3) by lia.
  assert (Hret : (run_epochs args 1 1 3 Toy.start).1 = Returned tt)
    by (vm_compute; reflexivity).
  pose proof (outcome_returned (run_epochs args 1 1 3 Toy.start) tt Hret)
    as Hrun.
  split; [exact (conj Hn Hrun)|].
  exact (global_step_counts_batches args 1 3 Toy.start s Hn Hrun).
Defined.

Lemma optimizer_steps_over_run_witness :
  let args := Toy.args 32 3 2 in
  let s := (run_epochs args 2 1 3 Toy.start).2 in
  (0 <= 3 /\ run_epochs args 2 1 3 Toy.start = (Returned tt, s)) /\
  ((2 | 5) ->
   optimizer_steps (calls s) =
   (optimizer_steps (calls Toy.start) + Z.to_nat (batches_seen 1 3))%nat /\
   net s = run_net true 1 3 (net Toy.start)) /\
  (~ (2 | 5) ->
   optimizer_steps (calls s) = optimizer_steps (calls Toy.start) /\
   net s = run_net false 1 3 (net Toy.start)).
Proof.
  intros args s.
  assert (Hn : 0 <= 3) by lia.
  assert (Hret : (run_epochs args 2 1 3 Toy.start).1 = Returned tt)
    by (vm_compute; reflexivity).
  pose proof (outcome_returned (run_epochs args 2 1 3 Toy.start) tt Hret)
    as Hrun.
  split; [exact (conj Hn Hrun)|].
  exact (optimizer_steps_over_run args 2 3 Toy.start s Hn Hrun).
Defined.

(** The nets of that run and of the same run at batch size 64: twelve
    gradients piled up on the initial weight, against twelve updates. *)
Example run_nets :
  net (run_epochs (Toy.args 32 3 2) 2 1 3 Toy.start).2 = Toy.Net3 0 12 12 /\
  net (run_epochs (Toy.args 64 3 2) 1 1 3 Toy.start).2 = Toy.Net3 12 0 12.
Proof. split; vm_compute; reflexivity. Qed.

Lemma one_row_per_epoch_witness :
  let args := Toy.args 64 3 2 in
  let s := (run_epochs args 1 1 3 Toy.start).2 in
  (0 <= 3 /\ run_epochs args 1 1 3 Toy.start = (Returned tt, s)) /\
  exists rows,
    file_logger s = file_logger Toy.start ++ rows /\
    row_epoch <$> rows = seqZ 1 3 /\
    list_train_loss s = list_train_loss Toy.start ++ (row_train_loss <$> rows) /\
    list_dev_loss s = list_dev_loss Toy.start ++ (row_dev_loss <$> rows) /\
    list_dev_f1 s = list_dev_f1 Toy.start ++ (row_dev_f1 <$> rows).
Proof.
  intros args s.
  assert (Hn : 0 <= 3) by lia.
  assert (Hret : (run_epochs args 1 1 3 Toy.start).1 = Returned tt)
    by (vm_compute; reflexivity).
  pose proof (outcome_returned (run_epochs args 1 1 3 Toy.start) tt Hret)
    as Hrun.
  split; [exact (conj Hn Hrun)|].
  exact (one_row_per_epoch args 1 3 Toy.start s Hn Hrun).
Defined.

Lemma train_returns_only_if_witness :
  let args := Toy.args 64 2 1 in
  let s' := (train args Toy.start).2 in
  train args Toy.start = (Returned tt, s') /\
  -4 <= input_method args <= 3 /\ -4 <= output_method args <= 3 /\
  batch_size args <> 0 /\ 1 <= num_epoch args /\ save_epoch args <> 0 /\
  forall e, 1 <= e <= num_epoch args ->
    Forall (fun b => length b = 5%nat) (train_loader e) /\
    Forall (fun b => length b = 5%nat) (dev_loader e) /\
    (train_loader e <> [] -> log_step args <> 0 /\ batch_size args <= 64).
Proof.
  intros args s'.
  assert (Hret : (train args Toy.start).1 = Returned tt)
    by (vm_compute; reflexivity).
  pose proof (outcome_returned (train args Toy.start) tt Hret) as Hrun.
  split; [exact Hrun|].
  exact (train_returns_only_if args Toy.start s' Hrun).
Defined.

Lemma zero_batch_size_raises_at_start_witness :
  let args := Toy.args 0 1 1 in
  (-4 <= input_method args <= 3 /\ -4 <= output_method args <= 3 /\
   batch_size args = 0) /\
  train args Toy.start = (Raised (Exn ZeroDivisionError 81), Toy.start).
Proof.
  intros args.
  assert (Hi : -4 <= input_method args <= 3) by (simpl; lia).
  assert (Ho : -4 <= output_method args <= 3) by (simpl; lia).
  split; [exact (conj Hi (conj Ho eq_refl))|].
  exact (zero_batch_size_raises_at_start args Toy.start Hi Ho eq_refl).
Defined.

Lemma no_epoch_raises_name_error_witness :
  let args := Toy.args 64 0 1 in
  (-4 <= input_method args <= 3 /\ -4 <= output_method args <= 3 /\
   batch_size args <> 0 /\ num_epoch args < 1) /\
  train args Toy.start = (Raised (Exn NameError 248), init_locals Toy.start).
Proof.
  intros args.
  assert (Hi : -4 <= input_method args <= 3) by (simpl; lia).
  assert (Ho : -4 <= output_method args <= 3) by (simpl; lia).
  assert (Hbs : batch_size args <> 0) by (simpl; lia).
  assert (Hn : num_epoch args < 1) by (simpl; lia).
  split; [exact (conj Hi (conj Ho (conj Hbs Hn)))|].
  exact (no_epoch_raises_name_error args Toy.start Hi Ho Hbs Hn).
Defined.

Lemma zero_save_epoch_raises_after_saving_witness :
  let args := Toy.args 64 1 0 in
  let bytes := torch_save (model_training Toy.start) (net Toy.start) in
  let r := checkpoint args 1 (1 # 3)%Q Toy.start in
  save_epoch args = 0 /\
  r.1 = Raised (Exn ZeroDivisionError 237) /\
  disk r.2 !! ckpt_path args 1 = Some bytes /\
  (is_new_best (1 # 3)%Q (list_dev_f1 Toy.start) = true ->
   disk r.2 !! best_path args = Some bytes) /\
  (is_new_best (1 # 3)%Q (list_dev_f1 Toy.start) = false ->
   disk r.2 !! best_path args = disk Toy.start !! best_path args).
Proof.
  intros args bytes r. split; [reflexivity|].
  exact (zero_save_epoch_raises_after_saving args 1 (1 # 3)%Q Toy.start
           eq_refl).
Defined.

Lemma new_best_iff_above_all_seen_witness :
  let seen := [0 # 3; 1 # 3]%Q in
  let dev_f1 := (1 # 3)%Q in
  is_new_best dev_f1 seen = true <->
  forall g, g ∈ seen -> float_gt dev_f1 g = true.
Proof.
  intros seen dev_f1.
  exact (new_best_iff_above_all_seen dev_f1 seen toy_gt_irrefl toy_gt_trans
           (fun g m _ _ => toy_gt_negtrans dev_f1 g m)).
Defined.

Lemma toy_rows_have_labels (n : Toy.net) (a b c d : option Toy.tensor) :
  Forall (fun row => exists k, argmax_row row = Some k /\
                               is_Some (id2label !! k))
         (model_forward false n a b c d).1.
Proof.
  simpl. destruct a as [t|]; simpl; [|constructor].
  apply Forall_forall. intros row Hrow.
  apply list_elem_of_In, in_map_iff in Hrow as (v & <- & _).
  unfold argmax_row. cbn [fold_left].
  destruct (float_gt _ _); cbn [fst snd]; destruct (float_gt _ _);
    eexists; (split; [reflexivity|]); by eexists.
Qed.

Lemma train_returns_if_witness :
  let args := Toy.args 64 2 1 in
  (-4 <= input_method args <= 3 /\ -4 <= output_method args <= 3 /\
   0 < batch_size args <= 64 /\
   log_step args <> 0 /\ save_epoch args <> 0 /\ 1 <= num_epoch args) /\
  exists s', train args Toy.start = (Returned tt, s').
Proof.
  intros args.
  assert (Hi : -4 <= input_method args <= 3) by (simpl; lia).
  assert (Ho : -4 <= output_method args <= 3) by (simpl; lia).
  assert (Hbs : 0 < batch_size args <= 64) by (simpl; lia).
  assert (Hlog : log_step args <> 0) by (simpl; lia).
  assert (Hk : save_epoch args <> 0) by (simpl; lia).
  assert (Hn : 1 <= num_epoch args) by (simpl; lia).
  split; [exact (conj Hi (conj Ho (conj Hbs (conj Hlog (conj Hk Hn)))))|].
  apply (train_returns_if args Toy.start Hi Ho Hbs Hlog Hk Hn).
  - intros e _. split; [repeat constructor|]. split; [repeat constructor|].
    split; left; discriminate.
  - exact toy_rows_have_labels.
Defined.

End FurtherRuns.

(** ** Saved models and the empty training set *)

(** X17: whatever a completed epoch saves, it saves from a model in
    inference mode: the epoch ends with [model.training] false, and the
    bytes written are those of [torch.save] on such a model. *)
Theorem snapshots_are_in_eval_mode `{Collaborators}
    (args : Args) (A e : Z) (s0 : State) (bytes : File) :
  1 <= e -> epoch_snapshot args A s0 e bytes ->
  exists n, bytes = torch_save false n.
Proof.
  intros He (s_e & Hrun & ->).
  replace e with ((e - 1) + 1) in Hrun by lia.
  apply run_epochs_succ in Hrun as (s1 & _ & Hbody); [|lia].
  apply epoch_body_returned in Hbody
    as (tl & u1 & r & u2 & _ & Heval & _ & ->).
  apply eval_pass_returned in Heval as (_ & _ & _ & _ & _ & Ht & _).
  exists (net u2). cbn. by rewrite Ht.
Qed.

(** X18: when the train loader yields no batch and the training set is
    empty, the TRAIN pass and the EVAL pass of the epoch still run, and the
    normalization of line 223 then divides the integer 0 by 0: the epoch
    raises [ZeroDivisionError] there, with no row logged and no file
    written. *)
Theorem empty_training_set_raises_at_report `{Collaborators}
    (args : Args) (A epoch : Z) (s s2 : State)
    (r : list string * PyNum Float) :
  train_loader epoch = [] -> train_dataset_len = 0 ->
  eval_pass (dev_loader epoch) (train_pass args A [] s).2 = (Returned r, s2) ->
  epoch_body args A tt epoch s = (Raised (Exn ZeroDivisionError 223), s2) /\
  same_files s s2.
Proof.
  intros Hloader Hlen Heval. split.
  - unfold epoch_body. rewrite Hloader, Hlen.
    apply bind_raised. right. exists (PyInt 0), (train_pass args A [] s).2.
    split; [reflexivity|].
    apply bind_raised. right. exists r, s2. split; [exact Heval|].
    apply bind_raised. by left.
  - apply eval_pass_returned in Heval as (_ & _ & _ & _ & _ & _ & _ & Hf).
    exact Hf.
Qed.

Section EmptyTrainingSet.
Local Existing Instance Toy.no_train_data.

Lemma empty_training_set_raises_at_report_witness :
  let args := Toy.args 64 1 1 in
  let s : State := mkState true (Toy.Net3 0 0 0) ∅ [] 0 [] [] [] [] in
  let r := (["no_relation"; "per:title"; "no_relation"],
            PyFloat (12 # 16)%Q) in
  let s2 := (eval_pass (dev_loader 1) (train_pass args 1 [] s).2).2 in
  (train_loader 1 = [] /\ train_dataset_len = 0 /\
   eval_pass (dev_loader 1) (train_pass args 1 [] s).2 = (Returned r, s2)) /\
  epoch_body args 1 tt 1 s = (Raised (Exn ZeroDivisionError 223), s2) /\
  same_files s s2.
Proof.
  intros args s r s2.
  assert (Hret : (eval_pass (dev_loader 1) (train_pass args 1 [] s).2).1 =
                 Returned r) by (vm_compute; reflexivity).
  pose proof (outcome_returned _ _ Hret) as Heval.
  split; [exact (conj eq_refl (conj eq_refl Heval))|].
  exact (empty_training_set_raises_at_report args 1 1 s s2 r
           eq_refl eq_refl Heval).
Defined.

End EmptyTrainingSet.

Section SnapshotRun.
Local Existing Instance Toy.collaborators.

Lemma snapshots_are_in_eval_mode_witness :
  let args := Toy.args 64 3 2 in
  let s_e := (run_epochs args 1 1 2 Toy.start).2 in
  let bytes := torch_save (model_training s_e) (net s_e) in
  (1 <= 2 /\ epoch_snapshot args 1 Toy.start 2 bytes) /\
  exists n, bytes = torch_save false n.
Proof.
  intros args s_e bytes.
  assert (Hn : 1 <= 2) by lia.
  assert (Hret : (run_epochs args 1 1 2 Toy.start).1 = Returned tt)
    by (vm_compute; reflexivity).
  pose proof (outcome_returned (run_epochs args 1 1 2 Toy.start) tt Hret)
    as Hrun.
  assert (Hsnap : epoch_snapshot args 1 Toy.start 2 bytes)
    by (exists s_e; split; [exact Hrun|reflexivity]).
  split; [exact (conj Hn Hsnap)|].
  exact (snapshots_are_in_eval_mode args 1 2 Toy.start bytes Hn Hsnap).
Defined.

End SnapshotRun.

Section LabelTable.
Local Existing Instance Toy.collaborators.

Lemma id2label_inverts_label_to_id_witness :
  NoDup (LABEL_TO_ID.*2) /\
  (("per:title", 1) ∈ LABEL_TO_ID <-> id2label !! 1 = Some "per:title").
Proof.
  assert (Hnd : NoDup (LABEL_TO_ID.*2))
    by (apply (bool_decide_unpack _); vm_compute; exact I).
  split; [exact Hnd|].
  exact (proj2 (id2label_inverts_label_to_id "per:title" 1) Hnd).
Defined.

End LabelTable.
